(** * graphene-django-cud: the batch-create mutation

    A shallow embedding of [graphene_django_cud/mutations/batch_create.py]:
    the class factory [__init_subclass_with_meta__] and the resolver
    [mutate] of [DjangoBatchCreateMutation], with the properties of the
    batch-create contract proved about them.

    - Python values whose truthiness the code tests are kept as the code
      has them ([None], booleans, tuples, possibly empty lists and strings).
    - Exceptions are an error type; a computation that may raise and that
      reads or writes the database is a function from a state to a result
      and a state.
    - The overridable class methods (the lifecycle hooks) are a record of
      functions over the database; the resolver records each hook call in
      a call log, which is how the order of the calls is observed.
    - The lists [mutate] hands to a hook outside the loop are handed by
      reference: such a hook answers with its return value and with the
      contents it leaves those lists with, and [mutate] goes on with the
      lists as they were left. The loop iterates the input as it stands
      when the loop begins.
    - [transaction.atomic()] restores the database on an exception and
      lets the exception through. *)

From stdpp Require Import base option list strings gmap.

Local Open Scope string_scope.
Local Open Scope list_scope.

(** ** Python values and truthiness *)

(** The values stored in [_meta.login_required]: the class keyword
    [login_required] ([None], [True] or [False]) and [permissions]
    ([None] or a tuple of permission names) are combined with [or] and
    [and], which return one of their operands. *)
Inductive pyval :=
| PyNone
| PyBool (b : bool)
| PyTuple (items : list string).

Definition truthy (v : pyval) : bool :=
  match v with
  | PyNone => false
  | PyBool b => b
  | PyTuple items => match items with [] => false | _ :: _ => true end
  end.

(** [a or b] and [a and b]: the right operand is evaluated only when
    needed, so it is passed as a thunk. *)
Definition py_or (a : pyval) (b : unit -> pyval) : pyval :=
  if truthy a then a else b tt.

Definition py_and (a : pyval) (b : unit -> pyval) : pyval :=
  if truthy a then b tt else a.

Definition py_of_bool (o : option bool) : pyval :=
  match o with None => PyNone | Some b => PyBool b end.

Definition py_of_tuple (o : option (list string)) : pyval :=
  match o with None => PyNone | Some items => PyTuple items end.

(** [len(x)] is only evaluated on a tuple here. *)
Definition py_len (v : pyval) : nat :=
  match v with PyTuple items => length items | _ => 0 end.

(** Truthiness of an optional list ([None] and the empty list are false)
    and of an optional string ([None] and the empty string are false). *)
Definition truthy_list {A} (o : option (list A)) : bool :=
  match o with
  | Some (_ :: _) => true
  | _ => false
  end.

Definition truthy_str (o : option string) : bool :=
  match o with
  | Some (String _ _) => true
  | _ => false
  end.

Definition nonempty {A} (l : list A) : bool :=
  match l with [] => false | _ :: _ => true end.

(** ** Exceptions *)

Inductive exn :=
| GraphQLError (message : string)
| Exception (message : string)
| AssertionError (message : string)
| OtherError (class_name message : string).

Definition result (A : Type) : Type := exn + A.

(** Whether a computation returned rather than raised. *)
Definition returned {A} (r : result A) : bool :=
  match r with inr _ => true | inl _ => false end.

(** ** Computations that may raise and that change a state *)

Definition SE (S A : Type) : Type := S -> result A * S.

Definition ret {S A} (a : A) : SE S A := fun s => (inr a, s).

Definition raise {S A} (e : exn) : SE S A := fun s => (inl e, s).

Definition bind {S A B} (m : SE S A) (k : A -> SE S B) : SE S B :=
  fun s =>
    match m s with
    | (inr a, s') => k a s'
    | (inl e, s') => (inl e, s')
    end.

Definition gets {S A} (f : S -> A) : SE S A := fun s => (inr (f s), s).

Definition modify {S} (f : S -> S) : SE S unit := fun s => (inr tt, f s).

Declare Scope se_scope.
Delimit Scope se_scope with se.
Notation "x <- m ;; k" := (bind m (fun x => k))
  (at level 100, m at next level, right associativity) : se_scope.
Notation "m ;;; k" := (bind m (fun _ => k))
  (at level 100, right associativity) : se_scope.

(** ** The objects of the framework *)

Record User := { is_authenticated : bool }.
Record Context := { user : User }.
Record Info := { context : Context }.

Record Model := { model_name : string; model_str : string }.

(** A dict the code only tests for emptiness, lists the keys of, or
    passes on: its items in insertion order. *)
Definition dict (V : Type) : Type := list (string * V).

(** [o or d] on an optional string, also [if not o: o = d]. *)
Definition str_or (o : option string) (d : string) : string :=
  match o with
  | Some (String a rest) => String a rest
  | _ => d
  end.

Section Resolver.

(** [Root] is the resolver's [root] argument, [Data] one input record,
    [Obj] a model instance, [Store] the database, [PyObject] any other
    object the code only passes on. *)
Context {Root Data Obj Store PyObject : Type}.

(** The options kept on [cls._meta] (lines 165-183). *)
Record Meta := {
  model : Model;
  fields : list (string * PyObject);
  return_field_name : string;
  optional_fields : list string;
  required_fields : list string;
  permissions : option (list string);
  auto_context_fields : dict string;
  many_to_many_extras : dict PyObject;
  foreign_key_extras : dict PyObject;
  many_to_one_extras : dict PyObject;
  one_to_one_extras : dict PyObject;
  use_id_suffixes_for_fk : option bool;
  use_id_suffixes_for_m2m : option bool;
  field_name_mappings : option (dict string);
  field_types : dict PyObject;
  InputType : PyObject;
  input_type_name : string;
  login_required : pyval;
}.

(** A hook call: it may raise, and it may read and write the database. *)
Definition Hook (A : Type) : Type := Store -> result A * Store.

(** [return_data]: the dict, made with the single key [return_field_name],
    as the items it holds. *)
Definition ReturnData : Type := list (string * list Obj).

(** What [before_mutate] answers: the value it returns and the contents
    of the list [input] when it returns (a hook may edit in place the list
    it is handed). *)
Record InputReply := {
  updated_input : option (list Data);
  input_left : list Data;
}.

(** What [before_save] answers: the value it returns and the contents of
    the lists [created_objects] and [input] when it returns. *)
Record SaveReply := {
  updated_objs : option (list Obj);
  objs_left : list Obj;
  input_after_save : list Data;
}.

(** The class methods [mutate] calls, which a subclass may override.
    [check_permissions] answers with the contents of [input] when it
    returns, [after_mutate] with the items of [return_data] when it
    returns (its return value is discarded by [mutate]; [return_data]
    holds the list [created_objs] itself, so an edit of that list shows in
    the items). The hooks called inside the loop answer through their
    return value. *)
Record Hooks := {
  before_mutate : Root -> Info -> list Data -> Hook InputReply;
  check_permissions : Root -> Info -> list Data -> Hook (list Data);
  validate : Root -> Info -> Data -> list Data -> Hook unit;
  create_obj :
    Data -> Info -> dict string ->
    dict PyObject -> dict PyObject -> dict PyObject -> dict PyObject ->
    option (dict string) -> Model -> Hook Obj;
  after_create_obj : Root -> Info -> Data -> Obj -> list Data -> Hook (option Obj);
  before_save : Root -> Info -> list Data -> list Obj -> Hook SaveReply;
  after_mutate : Root -> Info -> list Data -> list Obj -> ReturnData -> Hook ReturnData;
}.

(** [after_create_obj] as the class defines it (lines 207-209). *)
Definition default_after_create_obj
    (root : Root) (info : Info) (input : Data) (obj : Obj)
    (full_input : list Data) : Hook (option Obj) :=
  fun db => (inr None, db).

(** The calls [mutate] makes, in the order it makes them. *)
Inductive call :=
| CallBeforeMutate (input : list Data)
| CallCheckPermissions (input : list Data)
| AtomicEnter
| CallValidate (data : Data) (full_input : list Data)
| CallCreateObj (data : Data)
| CallAfterCreateObj (data : Data) (obj : Obj) (full_input : list Data)
| CallBeforeSave (input : list Data) (created_objects : list Obj)
| AtomicCommit
| AtomicRollback
| CallAfterMutate (input : list Data) (created_objs : list Obj)
                  (return_data : ReturnData).

Record State := { store : Store; calls : list call }.

(** Computations of the resolver. *)
Definition M (A : Type) : Type := SE State A.

(** Calling a hook: the call is logged, then the hook runs on the
    database. *)
Definition invoke {A} (c : call) (h : Hook A) : M A :=
  fun s =>
    let (r, db) := h (store s) in
    (r, {| store := db; calls := calls s ++ [c] |}).

Definition log (c : call) (s : State) : State :=
  {| store := store s; calls := calls s ++ [c] |}.

(** [with transaction.atomic(): body]. On normal exit the writes of
    [body] are kept; when [body] raises, the database is put back as it
    was on entry and the same exception goes on to the caller. *)
Definition atomic {A} (body : M A) : M A :=
  fun s =>
    match body (log AtomicEnter s) with
    | (inr a, s') => (inr a, log AtomicCommit s')
    | (inl e, s') =>
        (inl e, {| store := store s; calls := calls s' ++ [AtomicRollback] |})
    end.

End Resolver.

Arguments Meta : clear implicits.
Arguments Hooks : clear implicits.
Arguments call : clear implicits.
Arguments State : clear implicits.
Arguments M : clear implicits.
Arguments ReturnData : clear implicits.
Arguments Hook : clear implicits.
Arguments InputReply : clear implicits.
Arguments SaveReply : clear implicits.

(** ** The class factory [__init_subclass_with_meta__] (lines 29-185) *)

Section Factory.

Context {PyObject : Type}.

(** The keyword arguments of the class definition, with [None] where the
    signature has it as the default (lines 31-55). *)
Record Options := {
  opt_model : option Model;
  opt_permissions : option (list string);
  opt_login_required : option bool;
  opt_fields : list string;
  opt_only_fields : list string;
  opt_exclude : list string;
  opt_exclude_fields : list string;
  opt_optional_fields : list string;
  opt_required_fields : list string;
  opt_auto_context_fields : option (dict string);
  opt_return_field_name : option string;
  opt_many_to_many_extras : option (dict PyObject);
  opt_foreign_key_extras : option (dict PyObject);
  opt_many_to_one_extras : option (dict PyObject);
  opt_one_to_one_extras : option (dict PyObject);
  opt_type_name : option string;
  opt_use_type_name : option string;
  opt_field_types : option (dict PyObject);
  opt_custom_fields : option (dict PyObject);
  opt_use_id_suffixes_for_fk : option bool;
  opt_use_id_suffixes_for_m2m : option bool;
  opt_field_name_mappings : option (dict string);
}.

(** The dict registered in the meta registry (lines 140-152). *)
Record TypeMeta := {
  tm_auto_context_fields : dict string;
  tm_optional_fields : list string;
  tm_required_fields : list string;
  tm_many_to_many_extras : dict PyObject;
  tm_many_to_one_extras : dict PyObject;
  tm_foreign_key_extras : dict PyObject;
  tm_one_to_one_extras : dict PyObject;
  tm_field_types : dict PyObject;
  tm_use_id_suffixes_for_fk : option bool;
  tm_use_id_suffixes_for_m2m : option bool;
  tm_field_name_mappings : dict string;
}.

(** What the factory reads and writes outside the class: the global
    registry (the type of each model, the converted fields by name), the
    meta registry and the warnings issued. *)
Record Globals := {
  model_types : Model -> option PyObject;
  converted_fields : gmap string PyObject;
  type_meta_registry : gmap string TypeMeta;
  warnings : list string;
}.

Definition F (A : Type) : Type := SE Globals A.

Definition warn (message : string) : F unit :=
  modify (fun g =>
    {| model_types := model_types g;
       converted_fields := converted_fields g;
       type_meta_registry := type_meta_registry g;
       warnings := warnings g ++ [message] |}).

Definition meta_registry_register (name : string) (tm : TypeMeta) : F unit :=
  modify (fun g =>
    {| model_types := model_types g;
       converted_fields := converted_fields g;
       type_meta_registry := <[name := tm]> (type_meta_registry g);
       warnings := warnings g |}).

Definition register_converted_field (name : string) (t : PyObject) : F unit :=
  modify (fun g =>
    {| model_types := model_types g;
       converted_fields := <[name := t]> (converted_fields g);
       type_meta_registry := type_meta_registry g;
       warnings := warnings g |}).

(** The functions of graphene, graphene_django and of the package's
    [util] module that the factory calls. *)
Variable to_snake_case : string -> string.
Variable get_model_fields : Model -> PyObject.
Variable apply_field_name_mappings :
  PyObject -> option bool -> option bool -> option (dict string) ->
  result (dict string).
Variable get_input_fields_for_model :
  Model -> list string -> list string -> list string -> list string ->
  dict PyObject -> dict PyObject -> dict PyObject -> dict PyObject ->
  string -> option (dict PyObject) -> dict string ->
  F (gmap string PyObject).
Variable new_input_object_type : string -> gmap string PyObject -> PyObject.
Variable graphene_List : PyObject -> bool -> PyObject.
Variable yank_fields_from_attrs : dict PyObject -> dict PyObject.
Variable super_init_subclass_with_meta : dict PyObject -> Meta PyObject -> F unit.

Definition lift_result {A} (r : result A) : F A := fun g => (r, g).

Local Open Scope se_scope.

(** Lines 102-155: the input type, its name and the field name mappings. *)
Definition input_type_for
    (o : Options) (model : Model) (fields exclude : list string)
    (auto_context_fields : dict string)
    (many_to_many_extras foreign_key_extras many_to_one_extras
       one_to_one_extras custom_fields : dict PyObject)
  : F (PyObject * string * option (dict string)) :=
  if truthy_str (opt_use_type_name o) then
    let input_type_name := str_or (opt_use_type_name o) EmptyString in
    found <- gets (fun g => converted_fields g !! input_type_name) ;;
    match found with
    | Some InputType => ret (InputType, input_type_name, opt_field_name_mappings o)
    | None =>
        raise (GraphQLError
                 ("Could not find input type with name " +:+ input_type_name))
    end
  else
    let input_type_name :=
      str_or (opt_type_name o) ("BatchCreate" +:+ model_name model +:+ "Input") in
    field_name_mappings <-
      lift_result
        (apply_field_name_mappings (get_model_fields model)
           (opt_use_id_suffixes_for_fk o) (opt_use_id_suffixes_for_m2m o)
           (opt_field_name_mappings o)) ;;
    input_fields <-
      get_input_fields_for_model model fields exclude
        (auto_context_fields.*1 ++ opt_optional_fields o)
        (opt_required_fields o)
        many_to_many_extras foreign_key_extras many_to_one_extras
        one_to_one_extras input_type_name (opt_field_types o)
        field_name_mappings ;;
    let input_fields :=
      foldl (fun m kv => <[kv.1 := kv.2]> m) input_fields custom_fields in
    let InputType := new_input_object_type input_type_name input_fields in
    meta_registry_register input_type_name
      {| tm_auto_context_fields := auto_context_fields;
         tm_optional_fields := opt_optional_fields o;
         tm_required_fields := opt_required_fields o;
         tm_many_to_many_extras := many_to_many_extras;
         tm_many_to_one_extras := many_to_one_extras;
         tm_foreign_key_extras := foreign_key_extras;
         tm_one_to_one_extras := one_to_one_extras;
         tm_field_types := default [] (opt_field_types o);
         tm_use_id_suffixes_for_fk := opt_use_id_suffixes_for_fk o;
         tm_use_id_suffixes_for_m2m := opt_use_id_suffixes_for_m2m o;
         tm_field_name_mappings := field_name_mappings |} ;;;
    register_converted_field input_type_name InputType ;;;
    ret (InputType, input_type_name, Some field_name_mappings).

(** Line 183: [login_required or (permissions and len(permissions) > 0)]. *)
Definition effective_login_required
    (login_required : option bool) (permissions : option (list string)) : pyval :=
  py_or (py_of_bool login_required)
    (fun _ => py_and (py_of_tuple permissions)
                (fun _ => PyBool (0 <? py_len (py_of_tuple permissions))%nat)).

(** The class is its [_meta]; a class statement that raises leaves none. *)
Definition init_subclass_with_meta (o : Options) : F (Meta PyObject) :=
  model_type <- gets (fun g => opt_model o ≫= model_types g) ;;
  let auto_context_fields := default [] (opt_auto_context_fields o) in
  let many_to_one_extras := default [] (opt_many_to_one_extras o) in
  let foreign_key_extras := default [] (opt_foreign_key_extras o) in
  let many_to_many_extras := default [] (opt_many_to_many_extras o) in
  let one_to_one_extras := default [] (opt_one_to_one_extras o) in
  let custom_fields := default [] (opt_custom_fields o) in
  match opt_model o, model_type with
  | Some model, Some model_type =>
      let return_field_name :=
        str_or (opt_return_field_name o) (to_snake_case (model_name model) +:+ "s") in
      (if nonempty (opt_fields o) && nonempty (opt_only_fields o)
       then raise (Exception "Cannot set both `fields` and `only_fields` on a mutation")
       else ret tt) ;;;
      (if nonempty (opt_exclude o) && nonempty (opt_exclude_fields o)
       then raise (Exception "Cannot set both `exclude` and `exclude_fields` on a mutation")
       else ret tt) ;;;
      fields <-
        (if nonempty (opt_only_fields o)
         then warn "`only_fields` is deprecated in favor of `fields`" ;;;
              ret (opt_only_fields o)
         else ret (opt_fields o)) ;;
      exclude <-
        (if nonempty (opt_exclude_fields o)
         then warn "`exclude_fields` is deprecated in favor of `exclude`" ;;;
              ret (opt_exclude_fields o)
         else ret (opt_exclude o)) ;;
      it <- input_type_for o model fields exclude auto_context_fields
              many_to_many_extras foreign_key_extras many_to_one_extras
              one_to_one_extras custom_fields ;;
      let '(InputType, input_type_name, field_name_mappings) := it in
      let arguments := [("input", graphene_List InputType true)] in
      let output_fields := [(return_field_name, graphene_List model_type false)] in
      let _meta :=
        {| model := model;
           fields := yank_fields_from_attrs output_fields;
           return_field_name := return_field_name;
           optional_fields := opt_optional_fields o;
           required_fields := opt_required_fields o;
           permissions := opt_permissions o;
           auto_context_fields := auto_context_fields;
           many_to_many_extras := many_to_many_extras;
           foreign_key_extras := foreign_key_extras;
           many_to_one_extras := many_to_one_extras;
           one_to_one_extras := one_to_one_extras;
           use_id_suffixes_for_fk := opt_use_id_suffixes_for_fk o;
           use_id_suffixes_for_m2m := opt_use_id_suffixes_for_m2m o;
           field_name_mappings := field_name_mappings;
           field_types := default [] (opt_field_types o);
           InputType := InputType;
           input_type_name := input_type_name;
           login_required :=
             effective_login_required (opt_login_required o) (opt_permissions o) |} in
      super_init_subclass_with_meta arguments _meta ;;;
      ret _meta
  | _, _ =>
      raise (AssertionError
               ("Model type must be registered for model " +:+
                from_option model_str "None" (opt_model o)))
  end.

End Factory.

Arguments Options : clear implicits.
Arguments TypeMeta : clear implicits.
Arguments Globals : clear implicits.
Arguments F : clear implicits.

(** ** [mutate] (lines 215-259) *)

Section Mutate.

Context {Root Data Obj Store PyObject : Type}.

Variable cls : Hooks Root Data Obj Store PyObject.
Variable meta : Meta PyObject.
Variable root : Root.
Variable info : Info.

Local Open Scope se_scope.

Local Abbreviation M := (M Data Obj Store).
Local Abbreviation ReturnData := (ReturnData Obj).

(** Lines 217-219: [if updated_input: input = updated_input]. Otherwise
    [input] is still the list handed to [before_mutate], with the
    contents the hook left it with. *)
Definition effective_input (reply : InputReply Data) : list Data :=
  if truthy_list (updated_input reply)
  then default (input_left reply) (updated_input reply)
  else input_left reply.

(** Lines 253-255: [if updated_objs: created_objs = updated_objs].
    Otherwise [created_objs] is still the list handed to [before_save],
    with the contents the hook left it with. *)
Definition saved_objs (reply : SaveReply Data Obj) : list Obj :=
  if truthy_list (updated_objs reply)
  then default (objs_left reply) (updated_objs reply)
  else objs_left reply.

(** Lines 217-224: [before_mutate], then the login test, then
    [check_permissions]. The value is the input the rest of [mutate]
    works on: the contents of [input] when [check_permissions] returns. *)
Definition mutate_prologue (input : list Data) : M (list Data) :=
  reply <- invoke (CallBeforeMutate input) (before_mutate cls root info input) ;;
  let input := effective_input reply in
  (if truthy (login_required meta) && negb (is_authenticated (user (context info)))
   then raise (GraphQLError "Must be logged in to access this mutation.")
   else ret tt) ;;;
  input <- invoke (CallCheckPermissions input) (check_permissions cls root info input) ;;
  ret input.

(** Line 227: [cls._meta.auto_context_fields or {}]. *)
Definition auto_context_fields_or_empty : dict string :=
  if nonempty (auto_context_fields meta) then auto_context_fields meta else [].

(** Lines 234-244: the call of [create_obj] for one record. *)
Definition create_obj_for (data : Data) : Hook Store Obj :=
  create_obj cls data info auto_context_fields_or_empty
    (many_to_many_extras meta) (foreign_key_extras meta)
    (many_to_one_extras meta) (one_to_one_extras meta)
    (field_name_mappings meta) (model meta).

(** Lines 232-251: the loop [for data in input], on the records [rest]
    still to do, with the list [created_objs] built so far. *)
Fixpoint create_loop (input rest : list Data) (created_objs : list Obj)
  : M (list Obj) :=
  match rest with
  | [] => ret created_objs
  | data :: rest' =>
      invoke (CallValidate data input) (validate cls root info data input) ;;;
      obj <- invoke (CallCreateObj data) (create_obj_for data) ;;
      new_obj <- invoke (CallAfterCreateObj data obj input)
                   (after_create_obj cls root info data obj input) ;;
      let obj := match new_obj with Some o => o | None => obj end in
      create_loop input rest' (created_objs ++ [obj])
  end.

(** Lines 231-255: the block under [with transaction.atomic()]: the loop,
    then [before_save]. The value is what [input] and [created_objs] are
    when the block is left. *)
Definition mutate_body (input : list Data) : M (list Data * list Obj) :=
  created_objs <- create_loop input input [] ;;
  reply <- invoke (CallBeforeSave input created_objs)
             (before_save cls root info input created_objs) ;;
  ret (input_after_save reply, saved_objs reply).

Definition mutate_transaction (input : list Data) : M (list Data * list Obj) :=
  atomic (mutate_body input).

(** Lines 257-259: [return_data] is made, handed to [after_mutate], and
    the payload is [cls] built from the items [return_data] then has:
    those items here. *)
Definition mutate_epilogue (input : list Data) (created_objs : list Obj)
  : M ReturnData :=
  let return_data := [(return_field_name meta, created_objs)] in
  return_data <- invoke (CallAfterMutate input created_objs return_data)
                   (after_mutate cls root info input created_objs return_data) ;;
  ret return_data.

Definition mutate (input : list Data) : M ReturnData :=
  input <- mutate_prologue input ;;
  left <- mutate_transaction input ;;
  mutate_epilogue left.1 left.2.

End Mutate.

(** ** The vocabulary of the properties *)

Section Vocabulary.

Context {Root Data Obj Store PyObject : Type}.

(** The records [create_obj] was called for, in the order of the calls. *)
Fixpoint create_calls (log : list (call Data Obj)) : list Data :=
  match log with
  | [] => []
  | CallCreateObj data :: log' => data :: create_calls log'
  | _ :: log' => create_calls log'
  end.

(** Lines 248-251: the object appended for a record, given the object
    [create_obj] returned and what [after_create_obj] returned. *)
Definition collected_obj (run : Obj * option Obj) : Obj :=
  default run.1 run.2.

(** The calls of the loop for records that went through it, given for
    each the object [create_obj] returned. *)
Fixpoint loop_calls (input rest : list Data) (runs : list (Obj * option Obj))
  : list (call Data Obj) :=
  match rest, runs with
  | data :: rest', run :: runs' =>
      CallValidate data input :: CallCreateObj data ::
      CallAfterCreateObj data run.1 input :: loop_calls input rest' runs'
  | _, _ => []
  end.

Variable cls : Hooks Root Data Obj Store PyObject.
Variable meta : Meta PyObject.
Variable root : Root.
Variable info : Info.

(** What happened to one record of a loop that came to its end:
    [create_obj] returned [run.1] for it and [after_create_obj], called
    with that object, returned [run.2]. *)
Definition processed (input : list Data) (data : Data)
    (run : Obj * option Obj) : Prop :=
  (exists db db', create_obj_for cls meta info data db = (inr run.1, db')) /\
  (exists db db',
     after_create_obj cls root info data run.1 input db = (inr run.2, db')).

(** Records going through the hooks one after the other, from one
    database to the next: for each record in turn [validate] returns,
    then [create_obj] (called as at lines 234-244) returns the object
    [run.1], then [after_create_obj], called with that object, returns
    [run.2]. *)
Inductive records_processed (input : list Data)
  : list Data -> Store -> list (Obj * option Obj) -> Store -> Prop :=
| ProcessedNone db : records_processed input [] db [] db
| ProcessedRecord data rest db db1 raw db2 new db3 runs db4 :
    validate cls root info data input db = (inr tt, db1) ->
    create_obj cls data info
      (if nonempty (auto_context_fields meta) then auto_context_fields meta else [])
      (many_to_many_extras meta) (foreign_key_extras meta)
      (many_to_one_extras meta) (one_to_one_extras meta)
      (field_name_mappings meta) (model meta) db1 = (inr raw, db2) ->
    after_create_obj cls root info data raw input db2 = (inr new, db3) ->
    records_processed input rest db3 runs db4 ->
    records_processed input (data :: rest) db ((raw, new) :: runs) db4.

(** A record that stops the loop on the database [db]: the hook that
    raises, the exception, and the calls made for the record. *)
Inductive record_raises (input : list Data) (data : Data)
  : Store -> exn -> list (call Data Obj) -> Prop :=
| ValidateRaises db e db1 :
    validate cls root info data input db = (inl e, db1) ->
    record_raises input data db e [CallValidate data input]
| CreateObjRaises db db1 e db2 :
    validate cls root info data input db = (inr tt, db1) ->
    create_obj cls data info
      (if nonempty (auto_context_fields meta) then auto_context_fields meta else [])
      (many_to_many_extras meta) (foreign_key_extras meta)
      (many_to_one_extras meta) (one_to_one_extras meta)
      (field_name_mappings meta) (model meta) db1 = (inl e, db2) ->
    record_raises input data db e [CallValidate data input; CallCreateObj data]
| AfterCreateObjRaises db db1 raw db2 e db3 :
    validate cls root info data input db = (inr tt, db1) ->
    create_obj cls data info
      (if nonempty (auto_context_fields meta) then auto_context_fields meta else [])
      (many_to_many_extras meta) (foreign_key_extras meta)
      (many_to_one_extras meta) (one_to_one_extras meta)
      (field_name_mappings meta) (model meta) db1 = (inr raw, db2) ->
    after_create_obj cls root info data raw input db2 = (inl e, db3) ->
    record_raises input data db e
      [CallValidate data input; CallCreateObj data;
       CallAfterCreateObj data raw input].

(** Whether login is required of this request and missing (line 221). *)
Definition login_missing : bool :=
  truthy (login_required meta) && negb (is_authenticated (user (context info))).

End Vocabulary.

(** ** Small instances

    Records are numbers, the object created for record [n] is [10 * n],
    and the database is the list of the rows written so far. *)

Module Examples.

Definition Db : Type := list nat.

Definition anonymous : Info :=
  {| context := {| user := {| is_authenticated := false |} |} |}.

Definition member : Info :=
  {| context := {| user := {| is_authenticated := true |} |} |}.

Definition dog : Model := {| model_name := "Dog"; model_str := "<class 'Dog'>" |}.

Definition dog_meta (login : pyval) : Meta unit :=
  {| model := dog;
     fields := [("dogs", tt)];
     return_field_name := "dogs";
     optional_fields := [];
     required_fields := [];
     permissions := None;
     auto_context_fields := [];
     many_to_many_extras := [];
     foreign_key_extras := [];
     many_to_one_extras := [];
     one_to_one_extras := [];
     use_id_suffixes_for_fk := None;
     use_id_suffixes_for_m2m := None;
     field_name_mappings := None;
     field_types := [];
     InputType := tt;
     input_type_name := "BatchCreateDogInput";
     login_required := login |}.

Definition pass {A} (a : A) : Hook Db A := fun db => (inr a, db).

(** [validate] rejects the record 0; [create_obj] writes one row. *)
Definition validate_nonzero (data : nat) : Hook Db unit :=
  fun db =>
    match data with
    | 0 => (inl (OtherError "ValidationError" "zero is not a dog"), db)
    | S _ => (inr tt, db)
    end.

Definition insert_row (data : nat) : Hook Db nat :=
  fun db => (inr (10 * data), db ++ [10 * data]).

(** Hooks that return nothing to use and leave the lists alone. *)
Definition keep_input (input : list nat) : Hook Db (InputReply nat) :=
  pass {| updated_input := None; input_left := input |}.

Definition keep_objs (input : list nat) (objs : list nat)
  : Hook Db (SaveReply nat nat) :=
  pass {| updated_objs := None; objs_left := objs; input_after_save := input |}.

(** The hooks that substitute nothing. *)
Definition plain_hooks : Hooks unit nat nat Db unit :=
  {| before_mutate := fun _ _ input => keep_input input;
     check_permissions := fun _ _ input => pass input;
     validate := fun _ _ data _ => validate_nonzero data;
     create_obj := fun data _ _ _ _ _ _ _ _ => insert_row data;
     after_create_obj := default_after_create_obj;
     before_save := fun _ _ input objs => keep_objs input objs;
     after_mutate := fun _ _ _ _ return_data => pass return_data |}.

(** [before_mutate] writes an audit row and refuses an empty batch. *)
Definition auditing_hooks : Hooks unit nat nat Db unit :=
  {| before_mutate := fun _ _ input db =>
       match input with
       | [] => (inl (Exception "empty batch"), db ++ [99])
       | _ :: _ => (inr {| updated_input := None; input_left := input |}, db ++ [99])
       end;
     check_permissions := fun _ _ input => pass input;
     validate := fun _ _ data _ => validate_nonzero data;
     create_obj := fun data _ _ _ _ _ _ _ _ => insert_row data;
     after_create_obj := default_after_create_obj;
     before_save := fun _ _ input objs => keep_objs input objs;
     after_mutate := fun _ _ _ _ return_data => pass return_data |}.

(** [before_mutate] returns the records other than 0 in a new list,
    [check_permissions] refuses everybody. *)
Definition guarded_hooks : Hooks unit nat nat Db unit :=
  {| before_mutate := fun _ _ input =>
       pass {| updated_input := Some (filter (fun n => n <> 0) input);
               input_left := input |};
     check_permissions := fun _ _ _ db =>
       (inl (GraphQLError "Not permitted to access this mutation."), db);
     validate := fun _ _ data _ => validate_nonzero data;
     create_obj := fun data _ _ _ _ _ _ _ _ => insert_row data;
     after_create_obj := default_after_create_obj;
     before_save := fun _ _ input objs => keep_objs input objs;
     after_mutate := fun _ _ _ _ return_data => pass return_data |}.

(** [after_create_obj] replaces the object of an even record by its
    successor, [before_save] returns the collection reversed, in a new
    list. *)
Definition substituting_hooks : Hooks unit nat nat Db unit :=
  {| before_mutate := fun _ _ input => keep_input input;
     check_permissions := fun _ _ input => pass input;
     validate := fun _ _ data _ => validate_nonzero data;
     create_obj := fun data _ _ _ _ _ _ _ _ => insert_row data;
     after_create_obj := fun _ _ data obj _ =>
       pass (if Nat.even data then Some (S obj) else None);
     before_save := fun _ _ input objs =>
       pass {| updated_objs := Some (reverse objs);
               objs_left := objs; input_after_save := input |};
     after_mutate := fun _ _ _ _ return_data => pass return_data |}.

(** [before_save] returns the objects above 100 only, in a new list. *)
Definition filtering_hooks : Hooks unit nat nat Db unit :=
  {| before_mutate := fun _ _ input => keep_input input;
     check_permissions := fun _ _ input => pass input;
     validate := fun _ _ data _ => validate_nonzero data;
     create_obj := fun data _ _ _ _ _ _ _ _ => insert_row data;
     after_create_obj := default_after_create_obj;
     before_save := fun _ _ input objs =>
       pass {| updated_objs := Some (filter (fun n => 100 < n) objs);
               objs_left := objs; input_after_save := input |};
     after_mutate := fun _ _ _ _ return_data => pass return_data |}.

(** The hooks edit the lists they are handed and return [None]:
    [before_mutate] drops the records 0 from [input], [before_save]
    reverses [created_objects], [after_mutate] empties [created_objs],
    the list [return_data] holds. *)
Definition editing_hooks : Hooks unit nat nat Db unit :=
  {| before_mutate := fun _ _ input =>
       pass {| updated_input := None;
               input_left := filter (fun n => n <> 0) input |};
     check_permissions := fun _ _ input => pass input;
     validate := fun _ _ data _ => validate_nonzero data;
     create_obj := fun data _ _ _ _ _ _ _ _ => insert_row data;
     after_create_obj := default_after_create_obj;
     before_save := fun _ _ input objs =>
       pass {| updated_objs := None;
               objs_left := reverse objs; input_after_save := input |};
     after_mutate := fun _ _ _ _ return_data =>
       pass (map (fun item => (item.1, [])) return_data) |}.

(** Only [after_mutate] edits: it empties [created_objs], the list
    [return_data] holds. *)
Definition emptying_hooks : Hooks unit nat nat Db unit :=
  {| before_mutate := fun _ _ input => keep_input input;
     check_permissions := fun _ _ input => pass input;
     validate := fun _ _ data _ => validate_nonzero data;
     create_obj := fun data _ _ _ _ _ _ _ _ => insert_row data;
     after_create_obj := default_after_create_obj;
     before_save := fun _ _ input objs => keep_objs input objs;
     after_mutate := fun _ _ _ _ return_data =>
       pass (map (fun item => (item.1, [])) return_data) |}.

Definition start : State nat nat Db := {| store := []; calls := [] |}.

(** The framework functions of the factory, on unit objects. *)
Definition lower (c : Ascii.ascii) : Ascii.ascii :=
  let n := Ascii.nat_of_ascii c in
  if ((65 <=? n) && (n <=? 90))%nat then Ascii.ascii_of_nat (n + 32) else c.

Fixpoint lower_case (name : string) : string :=
  match name with
  | EmptyString => EmptyString
  | String c rest => String (lower c) (lower_case rest)
  end.

Definition registered : Globals unit :=
  {| model_types := fun m => if decide (model_name m = "Dog") then Some tt else None;
     converted_fields := ∅;
     type_meta_registry := ∅;
     warnings := [] |}.

Definition no_model_fields (m : Model) : unit := tt.

Definition given_mappings (model_fields : unit) (fk m2m : option bool)
    (mappings : option (dict string)) : result (dict string) :=
  inr (default [] mappings).

Definition no_input_fields
    (m : Model) (fields exclude optional required : list string)
    (m2m fk m2o o2o : dict unit) (parent_type_name : string)
    (field_types : option (dict unit)) (mappings : dict string)
  : F unit (gmap string unit) :=
  ret ∅.

Definition unit_type (name : string) (input_fields : gmap string unit) : unit := tt.

Definition unit_list (of_type : unit) (required : bool) : unit := tt.

Definition same_fields (output_fields : dict unit) : dict unit := output_fields.

Definition super_accepts (arguments : dict unit) (_meta : Meta unit) : F unit unit :=
  ret tt.

Definition dog_factory (o : Options unit) : F unit (Meta unit) :=
  init_subclass_with_meta lower_case no_model_fields given_mappings
    no_input_fields unit_type unit_list same_fields super_accepts o.

Definition dog_options : Options unit :=
  {| opt_model := Some dog;
     opt_permissions := None;
     opt_login_required := None;
     opt_fields := [];
     opt_only_fields := [];
     opt_exclude := [];
     opt_exclude_fields := [];
     opt_optional_fields := [];
     opt_required_fields := [];
     opt_auto_context_fields := None;
     opt_return_field_name := None;
     opt_many_to_many_extras := None;
     opt_foreign_key_extras := None;
     opt_many_to_one_extras := None;
     opt_one_to_one_extras := None;
     opt_type_name := None;
     opt_use_type_name := None;
     opt_field_types := None;
     opt_custom_fields := None;
     opt_use_id_suffixes_for_fk := None;
     opt_use_id_suffixes_for_m2m := None;
     opt_field_name_mappings := None |}.

Definition with_permissions (perms : list string) (o : Options unit) : Options unit :=
  {| opt_model := opt_model o;
     opt_permissions := Some perms;
     opt_login_required := opt_login_required o;
     opt_fields := opt_fields o;
     opt_only_fields := opt_only_fields o;
     opt_exclude := opt_exclude o;
     opt_exclude_fields := opt_exclude_fields o;
     opt_optional_fields := opt_optional_fields o;
     opt_required_fields := opt_required_fields o;
     opt_auto_context_fields := opt_auto_context_fields o;
     opt_return_field_name := opt_return_field_name o;
     opt_many_to_many_extras := opt_many_to_many_extras o;
     opt_foreign_key_extras := opt_foreign_key_extras o;
     opt_many_to_one_extras := opt_many_to_one_extras o;
     opt_one_to_one_extras := opt_one_to_one_extras o;
     opt_type_name := opt_type_name o;
     opt_use_type_name := opt_use_type_name o;
     opt_field_types := opt_field_types o;
     opt_custom_fields := opt_custom_fields o;
     opt_use_id_suffixes_for_fk := opt_use_id_suffixes_for_fk o;
     opt_use_id_suffixes_for_m2m := opt_use_id_suffixes_for_m2m o;
     opt_field_name_mappings := opt_field_name_mappings o |}.

Definition with_field_lists (fields only_fields exclude exclude_fields : list string)
    (o : Options unit) : Options unit :=
  {| opt_model := opt_model o;
     opt_permissions := opt_permissions o;
     opt_login_required := opt_login_required o;
     opt_fields := fields;
     opt_only_fields := only_fields;
     opt_exclude := exclude;
     opt_exclude_fields := exclude_fields;
     opt_optional_fields := opt_optional_fields o;
     opt_required_fields := opt_required_fields o;
     opt_auto_context_fields := opt_auto_context_fields o;
     opt_return_field_name := opt_return_field_name o;
     opt_many_to_many_extras := opt_many_to_many_extras o;
     opt_foreign_key_extras := opt_foreign_key_extras o;
     opt_many_to_one_extras := opt_many_to_one_extras o;
     opt_one_to_one_extras := opt_one_to_one_extras o;
     opt_type_name := opt_type_name o;
     opt_use_type_name := opt_use_type_name o;
     opt_field_types := opt_field_types o;
     opt_custom_fields := opt_custom_fields o;
     opt_use_id_suffixes_for_fk := opt_use_id_suffixes_for_fk o;
     opt_use_id_suffixes_for_m2m := opt_use_id_suffixes_for_m2m o;
     opt_field_name_mappings := opt_field_name_mappings o |}.

(** [create_obj] refuses the record 7 after writing a row for it. *)
Definition insert_row_unless_seven (data : nat) : Hook Db nat :=
  fun db =>
    match Nat.eqb data 7 with
    | true => (inl (OtherError "IntegrityError" "duplicate key"), db ++ [10 * data])
    | false => (inr (10 * data), db ++ [10 * data])
    end.

Definition unique_hooks : Hooks unit nat nat Db unit :=
  {| before_mutate := fun _ _ input => keep_input input;
     check_permissions := fun _ _ input => pass input;
     validate := fun _ _ data _ => validate_nonzero data;
     create_obj := fun data _ _ _ _ _ _ _ _ => insert_row_unless_seven data;
     after_create_obj := default_after_create_obj;
     before_save := fun _ _ input objs => keep_objs input objs;
     after_mutate := fun _ _ _ _ return_data => pass return_data |}.

(** [before_mutate] returns an empty list, [after_create_obj] refuses an
    object above 50, [before_save] a collection of more than two objects,
    [after_mutate] raises after writing a row. *)
Definition strict_hooks : Hooks unit nat nat Db unit :=
  {| before_mutate := fun _ _ input =>
       pass {| updated_input := Some []; input_left := input |};
     check_permissions := fun _ _ input => pass input;
     validate := fun _ _ data _ => validate_nonzero data;
     create_obj := fun data _ _ _ _ _ _ _ _ => insert_row data;
     after_create_obj := fun _ _ _ obj _ db =>
       match Nat.leb obj 50 with
       | true => (inr None, db)
       | false => (inl (OtherError "ValueError" "too big"), db)
       end;
     before_save := fun _ _ input objs db =>
       match Nat.leb (length objs) 2 with
       | true => (inr {| updated_objs := None; objs_left := objs;
                         input_after_save := input |}, db)
       | false => (inl (OtherError "ValueError" "too many"), db)
       end;
     after_mutate := fun _ _ _ _ _ db =>
       (inl (OtherError "ConnectionError" "mail server down"), db ++ [1]) |}.

Definition with_type_names (type_name use_type_name : option string)
    (custom_fields : option (dict unit)) (o : Options unit) : Options unit :=
  {| opt_model := opt_model o;
     opt_permissions := opt_permissions o;
     opt_login_required := opt_login_required o;
     opt_fields := opt_fields o;
     opt_only_fields := opt_only_fields o;
     opt_exclude := opt_exclude o;
     opt_exclude_fields := opt_exclude_fields o;
     opt_optional_fields := opt_optional_fields o;
     opt_required_fields := opt_required_fields o;
     opt_auto_context_fields := opt_auto_context_fields o;
     opt_return_field_name := opt_return_field_name o;
     opt_many_to_many_extras := opt_many_to_many_extras o;
     opt_foreign_key_extras := opt_foreign_key_extras o;
     opt_many_to_one_extras := opt_many_to_one_extras o;
     opt_one_to_one_extras := opt_one_to_one_extras o;
     opt_type_name := type_name;
     opt_use_type_name := use_type_name;
     opt_field_types := opt_field_types o;
     opt_custom_fields := custom_fields;
     opt_use_id_suffixes_for_fk := opt_use_id_suffixes_for_fk o;
     opt_use_id_suffixes_for_m2m := opt_use_id_suffixes_for_m2m o;
     opt_field_name_mappings := opt_field_name_mappings o |}.

Definition cat : Model := {| model_name := "Cat"; model_str := "<class 'Cat'>" |}.

Definition with_model (m : option Model) (o : Options unit) : Options unit :=
  {| opt_model := m;
     opt_permissions := opt_permissions o;
     opt_login_required := opt_login_required o;
     opt_fields := opt_fields o;
     opt_only_fields := opt_only_fields o;
     opt_exclude := opt_exclude o;
     opt_exclude_fields := opt_exclude_fields o;
     opt_optional_fields := opt_optional_fields o;
     opt_required_fields := opt_required_fields o;
     opt_auto_context_fields := opt_auto_context_fields o;
     opt_return_field_name := opt_return_field_name o;
     opt_many_to_many_extras := opt_many_to_many_extras o;
     opt_foreign_key_extras := opt_foreign_key_extras o;
     opt_many_to_one_extras := opt_many_to_one_extras o;
     opt_one_to_one_extras := opt_one_to_one_extras o;
     opt_type_name := opt_type_name o;
     opt_use_type_name := opt_use_type_name o;
     opt_field_types := opt_field_types o;
     opt_custom_fields := opt_custom_fields o;
     opt_use_id_suffixes_for_fk := opt_use_id_suffixes_for_fk o;
     opt_use_id_suffixes_for_m2m := opt_use_id_suffixes_for_m2m o;
     opt_field_name_mappings := opt_field_name_mappings o |}.

(** The registries once the input type [DogInput] is registered. *)
Definition registered_with_input : Globals unit :=
  {| model_types := model_types registered;
     converted_fields := {["DogInput" := tt]};
     type_meta_registry := ∅;
     warnings := [] |}.

End Examples.

(** ** Facts about the computations *)

Lemma bind_inr {S A B} (m : SE S A) (k : A -> SE S B) s a s' :
  m s = (inr a, s') -> bind m k s = k a s'.
Proof. intros E. unfold bind. now rewrite E. Qed.

Lemma bind_inl {S A B} (m : SE S A) (k : A -> SE S B) s e s' :
  m s = (inl e, s') -> bind m k s = (inl e, s').
Proof. intros E. unfold bind. now rewrite E. Qed.

Section InvokeFacts.

Context {Data Obj Store : Type}.

Lemma invoke_eq {A} (c : call Data Obj) (h : Hook Store A) (s : State Data Obj Store) r db :
  h (store s) = (r, db) ->
  invoke c h s = (r, {| store := db; calls := calls s ++ [c] |}).
Proof. intros E. unfold invoke. now rewrite E. Qed.

Lemma atomic_inr {A} (body : M Data Obj Store A) s a s' :
  body (log AtomicEnter s) = (inr a, s') ->
  atomic body s = (inr a, log AtomicCommit s').
Proof. intros E. unfold atomic. now rewrite E. Qed.

Lemma atomic_inl {A} (body : M Data Obj Store A) s e s' :
  body (log AtomicEnter s) = (inl e, s') ->
  atomic body s = (inl e, {| store := store s; calls := calls s' ++ [AtomicRollback] |}).
Proof. intros E. unfold atomic. now rewrite E. Qed.

(** Whatever the block does, a transaction that raises leaves the
    database as it found it. *)
Lemma atomic_raises_restores {A} (body : M Data Obj Store A) s e s' :
  atomic body s = (inl e, s') -> store s' = store s.
Proof.
  unfold atomic. destruct (body (log AtomicEnter s)) as [[e'|a] s''];
    intros [= <- <-]; reflexivity.
Qed.

End InvokeFacts.

Lemma create_calls_app {Data Obj} (l1 l2 : list (call Data Obj)) :
  create_calls (l1 ++ l2) = create_calls l1 ++ create_calls l2.
Proof.
  induction l1 as [|c l1 IH]; [reflexivity|].
  destruct c; cbn; rewrite ?IH; reflexivity.
Qed.

(** ** Facts about the loop *)

Section LoopFacts.

Context {Root Data Obj Store PyObject : Type}.

Variable cls : Hooks Root Data Obj Store PyObject.
Variable meta : Meta PyObject.
Variable root : Root.
Variable info : Info.

Local Abbreviation loop := (create_loop cls meta root info).
Local Abbreviation St := (State Data Obj Store).

(** One record that goes through. *)
Lemma create_loop_step input data rest acc (s : St) db1 raw db2 new db3 :
  validate cls root info data input (store s) = (inr tt, db1) ->
  create_obj_for cls meta info data db1 = (inr raw, db2) ->
  after_create_obj cls root info data raw input db2 = (inr new, db3) ->
  loop input (data :: rest) acc s =
  loop input rest (acc ++ [default raw new])
    {| store := db3;
       calls := calls s ++ [CallValidate data input; CallCreateObj data;
                            CallAfterCreateObj data raw input] |}.
Proof.
  intros Hv Hc Ha. cbn [create_loop]. unfold bind, invoke.
  rewrite Hv. cbn. rewrite Hc. cbn. rewrite Ha. cbn.
  rewrite <- !app_assoc. cbn. destruct new; reflexivity.
Qed.

(** The three ways a record stops the loop. *)
Lemma create_loop_validate_raises input data rest acc (s : St) e db1 :
  validate cls root info data input (store s) = (inl e, db1) ->
  loop input (data :: rest) acc s =
  (inl e, {| store := db1; calls := calls s ++ [CallValidate data input] |}).
Proof.
  intros Hv. cbn [create_loop]. unfold bind, invoke. rewrite Hv. reflexivity.
Qed.

Lemma create_loop_create_raises input data rest acc (s : St) db1 e db2 :
  validate cls root info data input (store s) = (inr tt, db1) ->
  create_obj_for cls meta info data db1 = (inl e, db2) ->
  loop input (data :: rest) acc s =
  (inl e, {| store := db2;
             calls := calls s ++ [CallValidate data input; CallCreateObj data] |}).
Proof.
  intros Hv Hc. cbn [create_loop]. unfold bind, invoke.
  rewrite Hv. cbn. rewrite Hc. cbn. rewrite <- !app_assoc. reflexivity.
Qed.

Lemma create_loop_after_create_raises input data rest acc (s : St)
    db1 raw db2 e db3 :
  validate cls root info data input (store s) = (inr tt, db1) ->
  create_obj_for cls meta info data db1 = (inr raw, db2) ->
  after_create_obj cls root info data raw input db2 = (inl e, db3) ->
  loop input (data :: rest) acc s =
  (inl e, {| store := db3;
             calls := calls s ++ [CallValidate data input; CallCreateObj data;
                                  CallAfterCreateObj data raw input] |}).
Proof.
  intros Hv Hc Ha. cbn [create_loop]. unfold bind, invoke.
  rewrite Hv. cbn. rewrite Hc. cbn. rewrite Ha. cbn.
  rewrite <- !app_assoc. reflexivity.
Qed.

(** The loop over [pre ++ rest] is the loop over [pre] followed by the
    loop over [rest]. *)
Lemma create_loop_app input pre rest acc (s : St) :
  loop input (pre ++ rest) acc s =
  bind (loop input pre acc) (loop input rest) s.
Proof.
  revert acc s. induction pre as [|d pre IH]; intros acc s.
  - reflexivity.
  - cbn [app create_loop]. unfold bind in *.
    destruct (invoke _ _ s) as [[e|[]] s1]; [reflexivity|].
    destruct (invoke _ _ s1) as [[e|raw] s2]; [reflexivity|].
    destruct (invoke _ _ s2) as [[e|new] s3]; [reflexivity|].
    apply IH.
Qed.

(** What a loop that came to its end returns: for each record, in the
    order of the input, the object collected for it. *)
Lemma create_loop_inr input rest acc (s : St) objs s' :
  loop input rest acc s = (inr objs, s') ->
  exists runs,
    Forall2 (processed cls meta root info input) rest runs /\
    objs = acc ++ map collected_obj runs /\
    create_calls (calls s') = create_calls (calls s) ++ rest.
Proof.
  revert acc s. induction rest as [|d rest IH]; intros acc s.
  - cbn. intros [= <- <-]. exists []. rewrite !app_nil_r. repeat split. constructor.
  - destruct (validate cls root info d input (store s)) as [[e|[]] db1] eqn:Hv.
    { now rewrite (create_loop_validate_raises _ _ _ _ _ _ _ Hv). }
    destruct (create_obj_for cls meta info d db1) as [[e|raw] db2] eqn:Hc.
    { now rewrite (create_loop_create_raises _ _ _ _ _ _ _ _ Hv Hc). }
    destruct (after_create_obj cls root info d raw input db2) as [[e|new] db3] eqn:Ha.
    { now rewrite (create_loop_after_create_raises _ _ _ _ _ _ _ _ _ _ Hv Hc Ha). }
    rewrite (create_loop_step _ _ _ _ _ _ _ _ _ _ Hv Hc Ha).
    intros Hloop. destruct (IH _ _ Hloop) as (runs & Hruns & Hobjs & Hcreate).
    exists ((raw, new) :: runs). split; [|split].
    + constructor; [|exact Hruns]. split; cbn; eauto.
    + rewrite Hobjs, <- app_assoc. reflexivity.
    + rewrite Hcreate. cbn [calls]. rewrite create_calls_app, <- app_assoc.
      reflexivity.
Qed.

(** A loop over records that go through the hooks returns the objects
    collected for them, leaves the database they lead to, and has made
    their calls. *)
Lemma create_loop_processed input rest acc (s : St) runs db' :
  records_processed cls meta root info input rest (store s) runs db' ->
  loop input rest acc s =
  (inr (acc ++ map collected_obj runs),
   {| store := db'; calls := calls s ++ loop_calls input rest runs |}).
Proof.
  revert acc s runs.
  induction rest as [|d rest IH]; intros acc s runs Hruns.
  - inversion Hruns; subst. cbn. rewrite !app_nil_r. now destruct s.
  - inversion Hruns as [|? ? ? db1 raw db2 new db3 runs' ? Hv Hc Ha Hrest]; subst.
    rewrite (create_loop_step _ _ _ _ _ _ _ _ _ _ Hv Hc Ha).
    rewrite (IH _ {| store := db3; calls := _ |} runs' Hrest).
    cbn. rewrite <- !app_assoc. reflexivity.
Qed.

(** Conversely, a loop that returns went over records that go through
    the hooks. *)
Lemma create_loop_inr_processed input rest acc (s : St) objs s' :
  loop input rest acc s = (inr objs, s') ->
  exists runs,
    records_processed cls meta root info input rest (store s) runs (store s') /\
    objs = acc ++ map collected_obj runs /\
    calls s' = calls s ++ loop_calls input rest runs.
Proof.
  revert acc s. induction rest as [|d rest IH]; intros acc s.
  - cbn. intros [= <- <-]. exists []. rewrite !app_nil_r. repeat split. constructor.
  - destruct (validate cls root info d input (store s)) as [[e|[]] db1] eqn:Hv.
    { now rewrite (create_loop_validate_raises _ _ _ _ _ _ _ Hv). }
    destruct (create_obj_for cls meta info d db1) as [[e|raw] db2] eqn:Hc.
    { now rewrite (create_loop_create_raises _ _ _ _ _ _ _ _ Hv Hc). }
    destruct (after_create_obj cls root info d raw input db2) as [[e|new] db3] eqn:Ha.
    { now rewrite (create_loop_after_create_raises _ _ _ _ _ _ _ _ _ _ Hv Hc Ha). }
    rewrite (create_loop_step _ _ _ _ _ _ _ _ _ _ Hv Hc Ha).
    intros Hloop. destruct (IH _ _ Hloop) as (runs & Hruns & Hobjs & Hcalls).
    exists ((raw, new) :: runs). split; [|split].
    + econstructor; eauto.
    + rewrite Hobjs, <- app_assoc. reflexivity.
    + rewrite Hcalls. cbn. rewrite <- app_assoc. reflexivity.
Qed.

(** A loop that raises went over records that go through the hooks up
    to one that stops it. *)
Lemma create_loop_inl input rest acc (s : St) e s' :
  loop input rest acc s = (inl e, s') ->
  exists pre d post runs db partial,
    rest = pre ++ d :: post /\
    records_processed cls meta root info input pre (store s) runs db /\
    record_raises cls meta root info input d db e partial /\
    calls s' = calls s ++ loop_calls input pre runs ++ partial.
Proof.
  revert acc s. induction rest as [|d rest IH]; intros acc s.
  - discriminate.
  - destruct (validate cls root info d input (store s)) as [[e'|[]] db1] eqn:Hv.
    { rewrite (create_loop_validate_raises _ _ _ _ _ _ _ Hv). intros [= <- <-].
      exists [], d, rest, [], (store s), [CallValidate d input].
      repeat split; [constructor|econstructor; eauto]. }
    destruct (create_obj_for cls meta info d db1) as [[e'|raw] db2] eqn:Hc.
    { rewrite (create_loop_create_raises _ _ _ _ _ _ _ _ Hv Hc). intros [= <- <-].
      exists [], d, rest, [], (store s), [CallValidate d input; CallCreateObj d].
      repeat split; [constructor|eapply CreateObjRaises; eauto]. }
    destruct (after_create_obj cls root info d raw input db2) as [[e'|new] db3] eqn:Ha.
    { rewrite (create_loop_after_create_raises _ _ _ _ _ _ _ _ _ _ Hv Hc Ha).
      intros [= <- <-].
      exists [], d, rest, [], (store s),
        [CallValidate d input; CallCreateObj d; CallAfterCreateObj d raw input].
      repeat split; [constructor|eapply AfterCreateObjRaises; eauto]. }
    rewrite (create_loop_step _ _ _ _ _ _ _ _ _ _ Hv Hc Ha).
    intros Hloop.
    destruct (IH _ _ Hloop)
      as (pre & d' & post & runs & db & partial & Hrest & Hruns & Hraises & Hcalls).
    exists (d :: pre), d', post, ((raw, new) :: runs), db, partial.
    split; [now rewrite Hrest|]. split; [econstructor; eauto|].
    split; [exact Hraises|].
    rewrite Hcalls. cbn. rewrite <- !app_assoc. reflexivity.
Qed.

Lemma records_processed_length input rest db runs db' :
  records_processed cls meta root info input rest db runs db' ->
  length runs = length rest.
Proof. induction 1; cbn; congruence. Qed.

Lemma create_calls_loop_calls (input rest : list Data) (runs : list (Obj * option Obj)) :
  length runs = length rest ->
  create_calls (loop_calls input rest runs) = rest.
Proof.
  revert runs. induction rest as [|d rest IH]; intros [|run runs] Hlen;
    cbn in *; try discriminate; [reflexivity|].
  f_equal. apply IH. congruence.
Qed.

End LoopFacts.

(** ** Facts about [mutate] *)

Section MutateFacts.

Context {Root Data Obj Store PyObject : Type}.

Variable cls : Hooks Root Data Obj Store PyObject.
Variable meta : Meta PyObject.
Variable root : Root.
Variable info : Info.

Local Abbreviation loop := (create_loop cls meta root info).
Local Abbreviation prologue := (mutate_prologue cls meta root info).
Local Abbreviation run := (mutate cls meta root info).
Local Abbreviation St := (State Data Obj Store).

(** The three ways out of the prologue. *)
Lemma prologue_before_mutate_raises input (s : St) e db :
  before_mutate cls root info input (store s) = (inl e, db) ->
  prologue input s =
  (inl e, {| store := db; calls := calls s ++ [CallBeforeMutate input] |}).
Proof.
  intros Hb. unfold mutate_prologue, bind, invoke. rewrite Hb. reflexivity.
Qed.

Lemma prologue_login_missing input (s : St) u db :
  before_mutate cls root info input (store s) = (inr u, db) ->
  login_missing meta info = true ->
  prologue input s =
  (inl (GraphQLError "Must be logged in to access this mutation."),
   {| store := db; calls := calls s ++ [CallBeforeMutate input] |}).
Proof.
  intros Hb Hl. unfold mutate_prologue, bind, invoke. rewrite Hb.
  unfold login_missing in Hl. rewrite Hl. reflexivity.
Qed.

Lemma prologue_check_permissions input (s : St) u db r db' :
  before_mutate cls root info input (store s) = (inr u, db) ->
  login_missing meta info = false ->
  check_permissions cls root info (effective_input u) db = (r, db') ->
  prologue input s =
  (r,
   {| store := db';
      calls := calls s ++ [CallBeforeMutate input;
                           CallCheckPermissions (effective_input u)] |}).
Proof.
  intros Hb Hl Hc. unfold mutate_prologue, bind, invoke. rewrite Hb.
  unfold login_missing in Hl. rewrite Hl. cbn. rewrite Hc.
  rewrite <- app_assoc. destruct r; reflexivity.
Qed.

(** [mutate] after each outcome of the prologue and of the transaction. *)
Lemma mutate_prologue_raises input (s : St) e s1 :
  prologue input s = (inl e, s1) -> run input s = (inl e, s1).
Proof. intros Hp. unfold mutate. now rewrite (bind_inl _ _ _ _ _ Hp). Qed.

Lemma mutate_loop_raises input (s : St) input' s1 e s2 :
  prologue input s = (inr input', s1) ->
  loop input' input' [] (log AtomicEnter s1) = (inl e, s2) ->
  run input s =
  (inl e, {| store := store s1; calls := calls s2 ++ [AtomicRollback] |}).
Proof.
  intros Hp Hl. unfold mutate. rewrite (bind_inr _ _ _ _ _ Hp).
  apply bind_inl. unfold mutate_transaction. apply atomic_inl.
  unfold mutate_body. now apply bind_inl.
Qed.

Lemma mutate_before_save_raises input (s : St) input' s1 objs s2 e db :
  prologue input s = (inr input', s1) ->
  loop input' input' [] (log AtomicEnter s1) = (inr objs, s2) ->
  before_save cls root info input' objs (store s2) = (inl e, db) ->
  run input s =
  (inl e, {| store := store s1;
             calls := calls s2 ++ [CallBeforeSave input' objs; AtomicRollback] |}).
Proof.
  intros Hp Hl Hb. unfold mutate. rewrite (bind_inr _ _ _ _ _ Hp).
  apply bind_inl. unfold mutate_transaction.
  rewrite (atomic_inl _ _ e
             {| store := db; calls := calls s2 ++ [CallBeforeSave input' objs] |}).
  - cbn. rewrite <- app_assoc. reflexivity.
  - unfold mutate_body. rewrite (bind_inr _ _ _ _ _ Hl).
    apply bind_inl. now apply invoke_eq.
Qed.

Lemma mutate_committed input (s : St) input' s1 objs s2 u db3 r db4 :
  prologue input s = (inr input', s1) ->
  loop input' input' [] (log AtomicEnter s1) = (inr objs, s2) ->
  before_save cls root info input' objs (store s2) = (inr u, db3) ->
  after_mutate cls root info (input_after_save u) (saved_objs u)
    [(return_field_name meta, saved_objs u)] db3 = (r, db4) ->
  run input s =
  (r,
   {| store := db4;
      calls := calls s2 ++
               [CallBeforeSave input' objs; AtomicCommit;
                CallAfterMutate (input_after_save u) (saved_objs u)
                  [(return_field_name meta, saved_objs u)]] |}).
Proof.
  intros Hp Hl Hb Ha. unfold mutate. rewrite (bind_inr _ _ _ _ _ Hp).
  assert (Ht : mutate_transaction cls meta root info input' s1 =
               (inr (input_after_save u, saved_objs u),
                log AtomicCommit
                  {| store := db3;
                     calls := calls s2 ++ [CallBeforeSave input' objs] |})).
  { unfold mutate_transaction. apply atomic_inr.
    unfold mutate_body. rewrite (bind_inr _ _ _ _ _ Hl).
    rewrite (bind_inr _ _ _ _ _ (invoke_eq _ _ _ _ _ Hb)). reflexivity. }
  rewrite (bind_inr _ _ _ _ _ Ht).
  unfold mutate_epilogue, bind, invoke, log. cbn [store calls fst snd].
  rewrite Ha. rewrite <- !app_assoc. cbn. destruct r; reflexivity.
Qed.

(** What a prologue that returns went through. *)
Lemma prologue_inr input (s : St) input' s1 :
  prologue input s = (inr input', s1) ->
  exists u db,
    before_mutate cls root info input (store s) = (inr u, db) /\
    login_missing meta info = false /\
    check_permissions cls root info (effective_input u) db = (inr input', store s1) /\
    calls s1 = calls s ++ [CallBeforeMutate input;
                           CallCheckPermissions (effective_input u)].
Proof.
  destruct (before_mutate cls root info input (store s)) as [[e|u] db] eqn:Eb.
  { now rewrite (prologue_before_mutate_raises _ _ _ _ Eb). }
  destruct (login_missing meta info) eqn:Hl.
  { now rewrite (prologue_login_missing _ _ _ _ Eb Hl). }
  destruct (check_permissions cls root info (effective_input u) db)
    as [r db'] eqn:Ec.
  rewrite (prologue_check_permissions _ _ _ _ _ _ Eb Hl Ec).
  intros [= -> <-]. exists u, db. auto.
Qed.

(** The prologue calls nothing of the transaction. *)
Lemma prologue_calls input (s : St) :
  exists new,
    calls (prologue input s).2 = calls s ++ new /\
    (AtomicEnter ∉ new) /\
    create_calls new = [].
Proof.
  destruct (before_mutate cls root info input (store s)) as [[e|u] db] eqn:Eb.
  { rewrite (prologue_before_mutate_raises _ _ _ _ Eb).
    eexists [_]. split; [reflexivity|]. split; [|reflexivity].
    intros H. apply list_elem_of_singleton in H. discriminate. }
  destruct (login_missing meta info) eqn:Hl.
  { rewrite (prologue_login_missing _ _ _ _ Eb Hl).
    eexists [_]. split; [reflexivity|]. split; [|reflexivity].
    intros H. apply list_elem_of_singleton in H. discriminate. }
  destruct (check_permissions cls root info (effective_input u) db)
    as [r db'] eqn:Ec.
  rewrite (prologue_check_permissions _ _ _ _ _ _ Eb Hl Ec).
  eexists [_; _]. split; [reflexivity|]. split; [|reflexivity].
  intros H. apply elem_of_cons in H as [H|H]; [discriminate|].
  apply list_elem_of_singleton in H. discriminate.
Qed.

(** A record at any position whose validation raises: the transaction
    is rolled back and the exception is the one [validate] raised. *)
Lemma mutate_validate_raises input (s : St) input' s1 pre d post objs s2 e db3 :
  prologue input s = (inr input', s1) ->
  input' = pre ++ d :: post ->
  loop input' pre [] (log AtomicEnter s1) = (inr objs, s2) ->
  validate cls root info d input' (store s2) = (inl e, db3) ->
  run input s =
  (inl e, {| store := store s1;
             calls := calls s2 ++ [CallValidate d input'; AtomicRollback] |}).
Proof.
  intros Hp Hin Hpre Hv.
  rewrite (mutate_loop_raises _ _ _ _ e
             {| store := db3; calls := calls s2 ++ [CallValidate d input'] |} Hp).
  - cbn. rewrite <- app_assoc. reflexivity.
  - rewrite Hin at 2. rewrite create_loop_app, (bind_inr _ _ _ _ _ Hpre).
    now apply create_loop_validate_raises.
Qed.

(** Every way through [mutate] once the prologue has returned the input
    [input']: a record stops the loop and the transaction is rolled back;
    or every record goes through and [before_save] raises, with the same
    end; or [before_save] returns, the transaction is committed and
    [after_mutate] is called on what [before_save] left. *)
Lemma mutate_outcome input (s : St) input' s1 :
  prologue input s = (inr input', s1) ->
  (exists pre d post runs db e partial,
     input' = pre ++ d :: post /\
     records_processed cls meta root info input' pre (store s1) runs db /\
     record_raises cls meta root info input' d db e partial /\
     run input s =
     (inl e,
      {| store := store s1;
         calls := calls s1 ++
                  AtomicEnter :: loop_calls input' pre runs ++ partial ++
                  [AtomicRollback] |})) \/
  (exists runs db2,
     records_processed cls meta root info input' input' (store s1) runs db2 /\
     ((exists e db,
         before_save cls root info input' (map collected_obj runs) db2 = (inl e, db) /\
         run input s =
         (inl e,
          {| store := store s1;
             calls := calls s1 ++
                      AtomicEnter :: loop_calls input' input' runs ++
                      [CallBeforeSave input' (map collected_obj runs);
                       AtomicRollback] |})) \/
      (exists reply db3,
         before_save cls root info input' (map collected_obj runs) db2 =
         (inr reply, db3) /\
         run input s =
         ((after_mutate cls root info (input_after_save reply) (saved_objs reply)
             [(return_field_name meta, saved_objs reply)] db3).1,
          {| store :=
               (after_mutate cls root info (input_after_save reply)
                  (saved_objs reply)
                  [(return_field_name meta, saved_objs reply)] db3).2;
             calls := calls s1 ++
                      AtomicEnter :: loop_calls input' input' runs ++
                      [CallBeforeSave input' (map collected_obj runs);
                       AtomicCommit;
                       CallAfterMutate (input_after_save reply) (saved_objs reply)
                         [(return_field_name meta, saved_objs reply)]] |})))).
Proof.
  intros Hp.
  destruct (loop input' input' [] (log AtomicEnter s1)) as [[e|objs] s2] eqn:El.
  - left. destruct (create_loop_inl cls meta root info _ _ _ _ _ _ El)
      as (pre & d & post & runs & db & partial & Hin & Hruns & Hraises & Hcalls).
    exists pre, d, post, runs, db, e, partial.
    split; [exact Hin|]. split; [exact Hruns|]. split; [exact Hraises|].
    rewrite (mutate_loop_raises _ _ _ _ _ _ Hp El), Hcalls. cbn [log calls].
    rewrite <- !app_assoc. reflexivity.
  - right. destruct (create_loop_inr_processed cls meta root info _ _ _ _ _ _ El)
      as (runs & Hruns & Hobjs & Hcalls).
    cbn [app] in Hobjs. subst objs. cbn [log calls store] in Hruns, Hcalls.
    exists runs, (store s2). split; [exact Hruns|].
    destruct (before_save cls root info input' (map collected_obj runs) (store s2))
      as [[e|reply] db3] eqn:Eb.
    + left. exists e, db3. split; [reflexivity|].
      rewrite (mutate_before_save_raises _ _ _ _ _ _ _ _ Hp El Eb), Hcalls.
      rewrite <- !app_assoc. reflexivity.
    + right. exists reply, db3. split; [reflexivity|].
      destruct (after_mutate cls root info (input_after_save reply)
                  (saved_objs reply)
                  [(return_field_name meta, saved_objs reply)] db3)
        as [r db4] eqn:Ea.
      rewrite (mutate_committed _ _ _ _ _ _ _ _ _ _ Hp El Eb Ea), Hcalls.
      cbn [fst snd]. rewrite <- !app_assoc. reflexivity.
Qed.

(** What a call of [mutate] that returns went through. *)
Lemma mutate_inr input (s : St) payload s' :
  run input s = (inr payload, s') ->
  exists input' s1 runs db2 reply db3,
    prologue input s = (inr input', s1) /\
    records_processed cls meta root info input' input' (store s1) runs db2 /\
    before_save cls root info input' (map collected_obj runs) db2 = (inr reply, db3) /\
    after_mutate cls root info (input_after_save reply) (saved_objs reply)
      [(return_field_name meta, saved_objs reply)] db3 = (inr payload, store s').
Proof.
  intros Hrun.
  destruct (prologue input s) as [[e|input'] s1] eqn:Hp.
  { rewrite (mutate_prologue_raises _ _ _ _ Hp) in Hrun. discriminate. }
  destruct (mutate_outcome _ _ _ _ Hp)
    as [(pre & d & post & runs & db & e & partial & _ & _ & _ & Hr)
       |(runs & db2 & Hruns & [(e & db & _ & Hr)|(reply & db3 & Eb & Hr)])];
    rewrite Hr in Hrun; try discriminate.
  exists input', s1, runs, db2, reply, db3.
  split; [reflexivity|]. split; [exact Hruns|]. split; [exact Eb|].
  injection Hrun as H1 H2. rewrite <- H2. cbn [store].
  rewrite <- H1. apply surjective_pairing.
Qed.

(** [mutate] for a user who is not authenticated when login is required. *)
Lemma mutate_login_missing input (s : St) :
  truthy (login_required meta) = true ->
  is_authenticated (user (context info)) = false ->
  calls (run input s).2 = calls s ++ [CallBeforeMutate input] /\
  create_calls (calls (run input s).2) = create_calls (calls s) /\
  store (run input s).2 = (before_mutate cls root info input (store s)).2 /\
  returned (run input s).1 = false /\
  (returned (before_mutate cls root info input (store s)).1 = true ->
   (run input s).1 =
   inl (GraphQLError "Must be logged in to access this mutation.")).
Proof.
  intros Hreq Hauth.
  assert (Hl : login_missing meta info = true)
    by (unfold login_missing; now rewrite Hreq, Hauth).
  destruct (before_mutate cls root info input (store s)) as [[e|u] db] eqn:Eb.
  - rewrite (mutate_prologue_raises _ _ _ _
               (prologue_before_mutate_raises _ _ _ _ Eb)).
    cbn. rewrite create_calls_app. cbn. rewrite app_nil_r.
    repeat split. discriminate.
  - rewrite (mutate_prologue_raises _ _ _ _
               (prologue_login_missing _ _ _ _ Eb Hl)).
    cbn. rewrite create_calls_app. cbn. rewrite app_nil_r.
    repeat split.
Qed.

End MutateFacts.

(** ** The batch-create contract *)

Section Contract.

Context {Root Data Obj Store PyObject : Type}.

Variable cls : Hooks Root Data Obj Store PyObject.
Variable meta : Meta PyObject.
Variable root : Root.
Variable info : Info.

Local Abbreviation loop := (create_loop cls meta root info).
Local Abbreviation prologue := (mutate_prologue cls meta root info).
Local Abbreviation run := (mutate cls meta root info).
Local Abbreviation St := (State Data Obj Store).

(** C1. A valid batch of N records with hooks that behave as the
    defaults: [before_mutate] and [before_save] return nothing to use and
    leave the lists alone, access is granted, [after_mutate] leaves
    [return_data] alone, and on the databases of the run every record
    passes [validate], [create_obj] returns an object for it and
    [after_create_obj] returns [None]. Then [mutate] returns exactly these
    N objects, in the order of the records, under the return field; the
    database is the one the hooks led to, committed; and the calls are
    those of the contract, with one call of [create_obj] per record. *)
Theorem mutate_creates_every_record_in_order
    input (s : St) reply db0 db1 objs db2 saved db3 db4 :
  before_mutate cls root info input (store s) = (inr reply, db0) ->
  truthy_list (updated_input reply) = false ->
  input_left reply = input ->
  login_missing meta info = false ->
  check_permissions cls root info input db0 = (inr input, db1) ->
  records_processed cls meta root info input input db1
    (map (fun obj => (obj, None)) objs) db2 ->
  before_save cls root info input objs db2 = (inr saved, db3) ->
  truthy_list (updated_objs saved) = false ->
  objs_left saved = objs ->
  input_after_save saved = input ->
  after_mutate cls root info input objs [(return_field_name meta, objs)] db3 =
    (inr [(return_field_name meta, objs)], db4) ->
  run input s =
  (inr [(return_field_name meta, objs)],
   {| store := db4;
      calls := calls s ++
               [CallBeforeMutate input; CallCheckPermissions input; AtomicEnter] ++
               loop_calls input input (map (fun obj => (obj, None)) objs) ++
               [CallBeforeSave input objs; AtomicCommit;
                CallAfterMutate input objs [(return_field_name meta, objs)]] |}) /\
  length objs = length input /\
  create_calls (calls (run input s).2) = create_calls (calls s) ++ input.
Proof.
  intros Eb Hu Hleft Hlogin Ecp Hruns Ebs Hv Hobjs Hinput Eam.
  assert (Hin : effective_input reply = input)
    by (unfold effective_input; now rewrite Hu).
  assert (Hsaved : saved_objs saved = objs)
    by (unfold saved_objs; now rewrite Hv).
  assert (Hlen : length objs = length input).
  { rewrite <- (records_processed_length _ _ _ _ _ _ _ _ _ Hruns).
    now rewrite length_map. }
  assert (Hcollected :
            map (@collected_obj Obj) (map (fun obj => (obj, None)) objs) = objs).
  { rewrite map_map. cbn. apply map_id. }
  pose proof (prologue_check_permissions cls meta root info input s reply db0
                (inr input) db1 Eb Hlogin) as Hp.
  rewrite Hin in Hp. specialize (Hp Ecp).
  set (s1 := {| store := db1;
                calls := calls s ++ [CallBeforeMutate input;
                                     CallCheckPermissions input] |}) in Hp.
  pose proof (create_loop_processed cls meta root info input input []
                (log AtomicEnter s1) _ db2 Hruns) as El.
  cbn [app] in El. rewrite Hcollected in El.
  pose proof (mutate_committed cls meta root info input s input s1 objs _ saved db3
                (inr [(return_field_name meta, objs)]) db4 Hp El Ebs) as Hrun.
  rewrite Hsaved, Hinput in Hrun. specialize (Hrun Eam).
  assert (Hcalls :
            calls s ++
            [CallBeforeMutate input; CallCheckPermissions input; AtomicEnter] ++
            loop_calls input input (map (fun obj => (obj, None)) objs) ++
            [CallBeforeSave input objs; AtomicCommit;
             CallAfterMutate input objs [(return_field_name meta, objs)]] =
            (calls (log AtomicEnter s1) ++
             loop_calls input input (map (fun obj => (obj, None)) objs)) ++
            [CallBeforeSave input objs; AtomicCommit;
             CallAfterMutate input objs [(return_field_name meta, objs)]]).
  { subst s1. cbn [log calls]. rewrite <- !app_assoc. reflexivity. }
  rewrite Hrun. cbn [calls] in *. rewrite Hcalls.
  split; [reflexivity|]. split; [exact Hlen|].
  cbn [snd calls]. rewrite !create_calls_app.
  rewrite create_calls_loop_calls by (now rewrite length_map).
  subst s1. cbn [log calls]. rewrite !create_calls_app. cbn.
  rewrite !app_nil_r. reflexivity.
Qed.

(** C2. When [validate] raises for the record at some position, after the
    records before it went through the loop, [mutate] raises and the
    database is as it was when the transaction was entered: what was
    written for the earlier records is gone, and the last call is the
    rollback. *)
Theorem validation_failure_rolls_back_batch
    input (s : St) input' s1 pre d post objs s2 e db3 :
  prologue input s = (inr input', s1) ->
  input' = pre ++ d :: post ->
  loop input' pre [] (log AtomicEnter s1) = (inr objs, s2) ->
  validate cls root info d input' (store s2) = (inl e, db3) ->
  returned (run input s).1 = false /\
  store (run input s).2 = store s1 /\
  calls (run input s).2 = calls s2 ++ [CallValidate d input'; AtomicRollback].
Proof.
  intros Hp Hin Hpre Hv.
  rewrite (mutate_validate_raises _ _ _ _ _ _ _ _ _ _ _ _ _ _ _ Hp Hin Hpre Hv).
  repeat split.
Qed.

(** C3, as amended. When login is required and the user is not
    authenticated, [before_mutate] is the only call [mutate] makes: the
    transaction is not entered and [create_obj] is not called, the
    database is as [before_mutate] left it, [mutate] raises, and what it
    raises is the [GraphQLError] of the login test unless [before_mutate]
    raised first. *)
Theorem unauthenticated_stops_before_persistence input (s : St) :
  truthy (login_required meta) = true ->
  is_authenticated (user (context info)) = false ->
  calls (run input s).2 = calls s ++ [CallBeforeMutate input] /\
  create_calls (calls (run input s).2) = create_calls (calls s) /\
  store (run input s).2 = (before_mutate cls root info input (store s)).2 /\
  returned (run input s).1 = false /\
  (returned (before_mutate cls root info input (store s)).1 = true ->
   (run input s).1 =
   inl (GraphQLError "Must be logged in to access this mutation.")).
Proof. apply mutate_login_missing. Qed.


(** C5, as amended. In a run where every record goes through and the
    hooks return: the object collected for a record is the one
    [after_create_obj] returned when it returned one, the object
    [create_obj] returned otherwise; the collection [mutate] goes on with
    is the one [before_save] returned when that is a non-empty collection,
    and otherwise (on [None] or an empty collection) the collected list as
    [before_save] left it; [return_data] is made of that collection under
    the return field and what [mutate] returns is [return_data] as
    [after_mutate] left it. *)
Theorem hooks_substitute_results
    input (s : St) input' s1 runs collected db2 reply kept db3 left db4 :
  prologue input s = (inr input', s1) ->
  records_processed cls meta root info input' input' (store s1) runs db2 ->
  collected = map (fun run => match run.2 with
                              | Some new_obj => new_obj
                              | None => run.1
                              end) runs ->
  before_save cls root info input' collected db2 = (inr reply, db3) ->
  kept = match updated_objs reply with
         | Some (obj :: updated) => obj :: updated
         | Some [] | None => objs_left reply
         end ->
  after_mutate cls root info (input_after_save reply) kept
    [(return_field_name meta, kept)] db3 = (inr left, db4) ->
  run input s =
  (inr left,
   {| store := db4;
      calls := calls s1 ++
               AtomicEnter :: loop_calls input' input' runs ++
               [CallBeforeSave input' collected; AtomicCommit;
                CallAfterMutate (input_after_save reply) kept
                  [(return_field_name meta, kept)]] |}).
Proof.
  intros Hp Hruns Hcollected Eb Hkept Ea.
  assert (Hc : collected = map collected_obj runs).
  { rewrite Hcollected. apply map_ext. intros [raw [new|]]; reflexivity. }
  assert (Hk : kept = saved_objs reply).
  { rewrite Hkept. unfold saved_objs.
    destruct (updated_objs reply) as [[|o os]|]; reflexivity. }
  pose proof (create_loop_processed cls meta root info input' input' []
                (log AtomicEnter s1) runs db2 Hruns) as El.
  cbn [app] in El. rewrite <- Hc in El. rewrite Hk in Ea.
  rewrite (mutate_committed _ _ _ _ _ _ _ _ _ _ _ _ _ _ Hp El Eb Ea).
  rewrite <- Hk. cbn [log calls]. rewrite <- !app_assoc. reflexivity.
Qed.

(** C6. When [validate] raises [e] for the record at some position,
    after the records before it went through the loop, [mutate] raises
    that same [e]. *)
Theorem validation_error_propagates_unchanged
    input (s : St) input' s1 pre d post objs s2 e db3 :
  prologue input s = (inr input', s1) ->
  input' = pre ++ d :: post ->
  loop input' pre [] (log AtomicEnter s1) = (inr objs, s2) ->
  validate cls root info d input' (store s2) = (inl e, db3) ->
  (run input s).1 = inl e.
Proof.
  intros Hp Hin Hpre Hv.
  now rewrite (mutate_validate_raises _ _ _ _ _ _ _ _ _ _ _ _ _ _ _ Hp Hin Hpre Hv).
Qed.

(** C9. [before_mutate] is the first call of every [mutate], made with
    the input as received. When it returns, a missing login raises after
    it, with the database as [before_mutate] left it; otherwise
    [check_permissions] is called next, with the input [before_mutate]
    returned when that is a non-empty list (and else with the received
    list as [before_mutate] left it), and when it raises [mutate] raises
    the same with the writes of both hooks in the database. *)
Theorem before_mutate_runs_before_access_checks input (s : St) :
  (exists later,
     calls (run input s).2 = calls s ++ CallBeforeMutate input :: later) /\
  (forall u db,
     before_mutate cls root info input (store s) = (inr u, db) ->
     (login_missing meta info = true ->
      run input s =
      (inl (GraphQLError "Must be logged in to access this mutation."),
       {| store := db; calls := calls s ++ [CallBeforeMutate input] |})) /\
     (login_missing meta info = false ->
      forall e db',
        check_permissions cls root info (effective_input u) db = (inl e, db') ->
        run input s =
        (inl e,
         {| store := db';
            calls := calls s ++
                     [CallBeforeMutate input;
                      CallCheckPermissions (effective_input u)] |}))).
Proof.
  split.
  - destruct (before_mutate cls root info input (store s)) as [[e|u] db] eqn:Eb.
    { rewrite (mutate_prologue_raises _ _ _ _ _ _ _ _
                 (prologue_before_mutate_raises _ _ _ _ _ _ _ _ Eb)).
      exists []. reflexivity. }
    destruct (login_missing meta info) eqn:Hl.
    { rewrite (mutate_prologue_raises _ _ _ _ _ _ _ _
                 (prologue_login_missing _ _ _ _ _ _ _ _ Eb Hl)).
      exists []. reflexivity. }
    destruct (check_permissions cls root info (effective_input u) db)
      as [[e|input'] db'] eqn:Ec.
    { rewrite (mutate_prologue_raises _ _ _ _ _ _ _ _
                 (prologue_check_permissions _ _ _ _ _ _ _ _ _ _ Eb Hl Ec)).
      eexists [_]. reflexivity. }
    pose proof (prologue_check_permissions _ _ _ _ _ _ _ _ _ _ Eb Hl Ec) as Hp.
    destruct (mutate_outcome _ _ _ _ _ _ _ _ Hp)
      as [(pre & d & post & runs & db1 & e & partial & _ & _ & _ & Hr)
         |(runs & db2 & _ & [(e & db1 & _ & Hr)|(reply & db3 & _ & Hr)])];
      rewrite Hr; cbn [snd calls]; rewrite <- app_assoc; eexists; reflexivity.
  - intros u db Eb. split.
    + intros Hl. apply mutate_prologue_raises.
      now apply prologue_login_missing with (u := u).
    + intros Hl e db' Ec. apply mutate_prologue_raises.
      exact (prologue_check_permissions _ _ _ _ _ _ _ _ _ _ Eb Hl Ec).
Qed.

End Contract.

(** ** The classes the factory makes *)

Section FactoryContract.

Context {Root Data Obj Store PyObject : Type}.

Variable to_snake_case : string -> string.
Variable get_model_fields : Model -> PyObject.
Variable apply_field_name_mappings :
  PyObject -> option bool -> option bool -> option (dict string) ->
  result (dict string).
Variable get_input_fields_for_model :
  Model -> list string -> list string -> list string -> list string ->
  dict PyObject -> dict PyObject -> dict PyObject -> dict PyObject ->
  string -> option (dict PyObject) -> dict string ->
  F PyObject (gmap string PyObject).
Variable new_input_object_type : string -> gmap string PyObject -> PyObject.
Variable graphene_List : PyObject -> bool -> PyObject.
Variable yank_fields_from_attrs : dict PyObject -> dict PyObject.
Variable super_init_subclass_with_meta : dict PyObject -> Meta PyObject -> F PyObject unit.

Local Abbreviation factory :=
  (init_subclass_with_meta to_snake_case get_model_fields
     apply_field_name_mappings get_input_fields_for_model
     new_input_object_type graphene_List yank_fields_from_attrs
     super_init_subclass_with_meta).

(** The options of a class that was made. *)
Lemma factory_inr o g meta g' :
  factory o g = (inr meta, g') ->
  opt_model o = Some (model meta) /\
  return_field_name meta =
    str_or (opt_return_field_name o)
      (to_snake_case (model_name (model meta)) +:+ "s") /\
  permissions meta = opt_permissions o /\
  login_required meta =
    effective_login_required (opt_login_required o) (opt_permissions o).
Proof.
  unfold init_subclass_with_meta, bind, gets, ret, raise.
  destruct (opt_model o) as [m|]; cbn; [|discriminate].
  destruct (model_types g m); [|discriminate].
  repeat (case_match; try discriminate).
  all: intros [= <- <-]; cbn; auto.
Qed.

(** The factory up to the two tests on the field lists. *)
Lemma factory_field_lists_raise o g m t :
  opt_model o = Some m ->
  model_types g m = Some t ->
  nonempty (opt_fields o) && nonempty (opt_only_fields o) = true \/
  nonempty (opt_exclude o) && nonempty (opt_exclude_fields o) = true ->
  factory o g =
  (inl (if nonempty (opt_fields o) && nonempty (opt_only_fields o)
        then Exception "Cannot set both `fields` and `only_fields` on a mutation"
        else Exception "Cannot set both `exclude` and `exclude_fields` on a mutation"),
   g).
Proof.
  intros Hm Ht Hboth.
  unfold init_subclass_with_meta, bind, gets, ret, raise.
  rewrite Hm. cbn. rewrite Ht.
  destruct (nonempty (opt_fields o) && nonempty (opt_only_fields o)); [reflexivity|].
  destruct Hboth as [?| ->]; [discriminate|reflexivity].
Qed.

(** C7, as amended. For a class the factory made, on the model it was
    configured with: the return field name is the one configured, and the
    snake-cased model name followed by [s] when none (or the empty string)
    is configured. In every call of [mutate] that returns, [return_data]
    is made of the created set (the objects collected for the records, as
    [before_save] returned or left them) under that one key, and what
    [mutate] returns is [return_data] as [after_mutate] left it. *)
Theorem created_set_under_return_field_name o g meta g' :
  factory o g = (inr meta, g') ->
  opt_model o = Some (model meta) /\
  return_field_name meta =
    match opt_return_field_name o with
    | Some (String c rest) => String c rest
    | Some EmptyString | None => to_snake_case (model_name (model meta)) +:+ "s"
    end /\
  forall (cls : Hooks Root Data Obj Store PyObject) root info input s payload s',
    mutate cls meta root info input s = (inr payload, s') ->
    exists input' s1 runs db2 reply db3,
      mutate_prologue cls meta root info input s = (inr input', s1) /\
      records_processed cls meta root info input' input' (store s1) runs db2 /\
      before_save cls root info input'
        (map (fun run => match run.2 with
                         | Some new_obj => new_obj
                         | None => run.1
                         end) runs) db2 = (inr reply, db3) /\
      after_mutate cls root info (input_after_save reply)
        (match updated_objs reply with
         | Some (obj :: updated) => obj :: updated
         | Some [] | None => objs_left reply
         end)
        [(return_field_name meta,
          match updated_objs reply with
          | Some (obj :: updated) => obj :: updated
          | Some [] | None => objs_left reply
          end)] db3 = (inr payload, store s').
Proof.
  intros Hf. destruct (factory_inr _ _ _ _ Hf) as (Hmodel & Hname & _).
  split; [exact Hmodel|]. split.
  - rewrite Hname. unfold str_or.
    destruct (opt_return_field_name o) as [[|c rest]|]; reflexivity.
  - intros cls root info input s payload s' Hrun.
    destruct (mutate_inr _ _ _ _ _ _ _ _ Hrun)
      as (input' & s1 & runs & db2 & reply & db3 & Hp & Hruns & Eb & Ea).
    exists input', s1, runs, db2, reply, db3.
    split; [exact Hp|]. split; [exact Hruns|].
    assert (Hc : map (fun run : Obj * option Obj =>
                        match run.2 with
                        | Some new_obj => new_obj
                        | None => run.1
                        end) runs = map collected_obj runs).
    { apply map_ext. intros [raw [new|]]; reflexivity. }
    assert (Hk : match updated_objs reply with
                 | Some (obj :: updated) => obj :: updated
                 | Some [] | None => objs_left reply
                 end = saved_objs reply).
    { unfold saved_objs. destruct (updated_objs reply) as [[|x l]|]; reflexivity. }
    rewrite Hc, Hk. auto.
Qed.

(** C8. A class made with a non-empty permissions list requires login,
    whatever [login_required] was given as: the stored option is truthy,
    and no call of [mutate] by a user who is not authenticated returns or
    reaches [create_obj]. *)
Theorem permissions_require_login o g meta g' perm perms :
  factory o g = (inr meta, g') ->
  opt_permissions o = Some (perm :: perms) ->
  truthy (login_required meta) = true /\
  forall (cls : Hooks Root Data Obj Store PyObject) root info input s,
    is_authenticated (user (context info)) = false ->
    returned (mutate cls meta root info input s).1 = false /\
    create_calls (calls (mutate cls meta root info input s).2) =
    create_calls (calls s).
Proof.
  intros Hf Hperms. destruct (factory_inr _ _ _ _ Hf) as (_ & _ & _ & Hlogin).
  assert (Htruthy : truthy (login_required meta) = true).
  { rewrite Hlogin, Hperms. unfold effective_login_required, py_or, py_and.
    destruct (opt_login_required o) as [[|]|]; reflexivity. }
  split; [exact Htruthy|].
  intros cls root info input s Hauth.
  destruct (mutate_login_missing cls meta root info input s
              Htruthy Hauth) as (_ & Hcreate & _ & Hret & _).
  auto.
Qed.

(** C10. Class options with both [fields] and [only_fields] set, or with
    both [exclude] and [exclude_fields] set: the factory raises and leaves
    the registries as they were; for a model whose type is registered the
    exception is the one of the first of the two tests that applies. *)
Theorem conflicting_field_lists_raise o g :
  nonempty (opt_fields o) && nonempty (opt_only_fields o) = true \/
  nonempty (opt_exclude o) && nonempty (opt_exclude_fields o) = true ->
  exists e,
    factory o g = (inl e, g) /\
    (forall m t,
       opt_model o = Some m -> model_types g m = Some t ->
       e = if nonempty (opt_fields o) && nonempty (opt_only_fields o)
           then Exception "Cannot set both `fields` and `only_fields` on a mutation"
           else Exception "Cannot set both `exclude` and `exclude_fields` on a mutation").
Proof.
  intros Hboth.
  destruct (opt_model o) as [m|] eqn:Hm.
  - destruct (model_types g m) as [t|] eqn:Ht.
    + rewrite (factory_field_lists_raise _ _ _ _ Hm Ht Hboth).
      eexists. split; [reflexivity|]. reflexivity.
    + eexists. split.
      * unfold init_subclass_with_meta, bind, gets, raise.
        rewrite Hm. cbn. rewrite Ht. reflexivity.
      * intros m' t' [= <-]. rewrite Ht. discriminate.
  - eexists. split.
    + unfold init_subclass_with_meta, bind, gets, raise. rewrite Hm. reflexivity.
    + discriminate.
Qed.

End FactoryContract.

(** ** The contract on the small instances *)

Section Instances.

Import Examples.

Local Abbreviation open_meta := (dog_meta PyNone).
Local Abbreviation closed_meta := (dog_meta (PyBool true)).

(** The three records 1, 2, 3 go through the plain hooks, one row each. *)
Lemma plain_records_processed :
  records_processed plain_hooks open_meta tt anonymous [1; 2; 3] [1; 2; 3] []
    (map (fun obj => (obj, None)) [10; 20; 30]) [10; 20; 30].
Proof. repeat (econstructor; try reflexivity). Defined.

(** Three valid records: three objects, in the order of the records,
    three rows committed. *)
Lemma mutate_creates_every_record_in_order_witness :
  mutate plain_hooks open_meta tt anonymous [1; 2; 3] start =
  (inr [("dogs", [10; 20; 30])],
   {| store := [10; 20; 30];
      calls := [CallBeforeMutate [1; 2; 3]; CallCheckPermissions [1; 2; 3];
                AtomicEnter;
                CallValidate 1 [1; 2; 3]; CallCreateObj 1;
                CallAfterCreateObj 1 10 [1; 2; 3];
                CallValidate 2 [1; 2; 3]; CallCreateObj 2;
                CallAfterCreateObj 2 20 [1; 2; 3];
                CallValidate 3 [1; 2; 3]; CallCreateObj 3;
                CallAfterCreateObj 3 30 [1; 2; 3];
                CallBeforeSave [1; 2; 3] [10; 20; 30]; AtomicCommit;
                CallAfterMutate [1; 2; 3] [10; 20; 30]
                  [("dogs", [10; 20; 30])]] |}) /\
  length [10; 20; 30] = length [1; 2; 3] /\
  create_calls
    (calls (mutate plain_hooks open_meta tt anonymous [1; 2; 3] start).2) =
  [1; 2; 3].
Proof.
  exact (mutate_creates_every_record_in_order plain_hooks open_meta tt anonymous
           [1; 2; 3] start
           {| updated_input := None; input_left := [1; 2; 3] |} [] []
           [10; 20; 30] [10; 20; 30]
           {| updated_objs := None; objs_left := [10; 20; 30];
              input_after_save := [1; 2; 3] |}
           [10; 20; 30] [10; 20; 30]
           eq_refl eq_refl eq_refl eq_refl eq_refl plain_records_processed
           eq_refl eq_refl eq_refl eq_refl eq_refl).
Defined.

(** The second of three records is refused: the row written for the
    first is gone. *)
Lemma validation_failure_rolls_back_batch_witness :
  returned (mutate plain_hooks open_meta tt anonymous [1; 0; 3] start).1 = false /\
  store (mutate plain_hooks open_meta tt anonymous [1; 0; 3] start).2 = [] /\
  calls (mutate plain_hooks open_meta tt anonymous [1; 0; 3] start).2 =
  [CallBeforeMutate [1; 0; 3]; CallCheckPermissions [1; 0; 3]; AtomicEnter;
   CallValidate 1 [1; 0; 3]; CallCreateObj 1; CallAfterCreateObj 1 10 [1; 0; 3];
   CallValidate 0 [1; 0; 3]; AtomicRollback].
Proof.
  exact (validation_failure_rolls_back_batch plain_hooks open_meta tt anonymous
           [1; 0; 3] start [1; 0; 3] _ [1] 0 [3] _ _ _ _
           eq_refl eq_refl eq_refl eq_refl).
Defined.

Lemma validation_error_propagates_unchanged_witness :
  (mutate plain_hooks open_meta tt anonymous [1; 0; 3] start).1 =
  inl (OtherError "ValidationError" "zero is not a dog").
Proof.
  exact (validation_error_propagates_unchanged plain_hooks open_meta tt anonymous
           [1; 0; 3] start [1; 0; 3] _ [1] 0 [3] _ _ _ _
           eq_refl eq_refl eq_refl eq_refl).
Defined.

(** An anonymous user and a class that requires login: the audit row of
    [before_mutate] is the only write, [before_mutate] the only call. *)
Lemma unauthenticated_stops_before_persistence_witness :
  calls (mutate auditing_hooks closed_meta tt anonymous [1; 2] start).2 =
  [CallBeforeMutate [1; 2]] /\
  create_calls (calls (mutate auditing_hooks closed_meta tt anonymous [1; 2] start).2) = [] /\
  store (mutate auditing_hooks closed_meta tt anonymous [1; 2] start).2 = [99] /\
  returned (mutate auditing_hooks closed_meta tt anonymous [1; 2] start).1 = false /\
  (true = true ->
   (mutate auditing_hooks closed_meta tt anonymous [1; 2] start).1 =
   inl (GraphQLError "Must be logged in to access this mutation.")).
Proof.
  exact (unauthenticated_stops_before_persistence auditing_hooks closed_meta tt
           anonymous [1; 2] start eq_refl eq_refl).
Defined.

(** C3 as stated fails when [before_mutate] raises or writes: here login
    is required and the user is anonymous, yet what [mutate] raises is not
    a [GraphQLError] and the database has a new row. *)
Lemma unauthenticated_before_mutate_counterexample :
  truthy (login_required closed_meta) = true /\
  is_authenticated (user (context anonymous)) = false /\
  (forall message,
     (mutate auditing_hooks closed_meta tt anonymous [] start).1 <>
     inl (GraphQLError message)) /\
  store (mutate auditing_hooks closed_meta tt anonymous [] start).2 <> store start.
Proof.
  split; [reflexivity|]. split; [reflexivity|]. split.
  - intros message. cbn. discriminate.
  - cbn. discriminate.
Qed.


(** The records 1, 2, 3 go through the substituting hooks. *)
Lemma substituting_records_processed :
  records_processed substituting_hooks open_meta tt anonymous [1; 2; 3] [1; 2; 3] []
    [(10, None); (20, Some 21); (30, None)] [10; 20; 30].
Proof. repeat (econstructor; try reflexivity). Defined.

(** The object of record 2 is replaced by [after_create_obj], then the
    whole collection by [before_save]. *)
Lemma hooks_substitute_results_witness :
  mutate substituting_hooks open_meta tt anonymous [1; 2; 3] start =
  (inr [("dogs", [30; 21; 10])],
   {| store := [10; 20; 30];
      calls := [CallBeforeMutate [1; 2; 3]; CallCheckPermissions [1; 2; 3]] ++
               AtomicEnter ::
               [CallValidate 1 [1; 2; 3]; CallCreateObj 1;
                CallAfterCreateObj 1 10 [1; 2; 3];
                CallValidate 2 [1; 2; 3]; CallCreateObj 2;
                CallAfterCreateObj 2 20 [1; 2; 3];
                CallValidate 3 [1; 2; 3]; CallCreateObj 3;
                CallAfterCreateObj 3 30 [1; 2; 3]] ++
               [CallBeforeSave [1; 2; 3] [10; 21; 30]; AtomicCommit;
                CallAfterMutate [1; 2; 3] [30; 21; 10]
                  [("dogs", [30; 21; 10])]] |}).
Proof.
  exact (hooks_substitute_results substituting_hooks open_meta tt anonymous
           [1; 2; 3] start [1; 2; 3]
           {| store := [];
              calls := [CallBeforeMutate [1; 2; 3];
                        CallCheckPermissions [1; 2; 3]] |}
           [(10, None); (20, Some 21); (30, None)] [10; 21; 30] [10; 20; 30]
           {| updated_objs := Some [30; 21; 10]; objs_left := [10; 21; 30];
              input_after_save := [1; 2; 3] |}
           [30; 21; 10] [10; 20; 30] [("dogs", [30; 21; 10])] [10; 20; 30]
           eq_refl substituting_records_processed eq_refl eq_refl eq_refl eq_refl).
Defined.

(** C5 as stated fails for an empty replacement: [before_save] returns
    the empty collection, in a new list, for the three objects collected,
    and [mutate] returns the three objects. *)
Lemma before_save_empty_collection_counterexample :
  before_save filtering_hooks tt anonymous [1; 2; 3] [10; 20; 30] [10; 20; 30] =
  (inr {| updated_objs := Some []; objs_left := [10; 20; 30];
          input_after_save := [1; 2; 3] |}, [10; 20; 30]) /\
  (mutate filtering_hooks open_meta tt anonymous [1; 2; 3] start).1 =
  inr [("dogs", [10; 20; 30])] /\
  (mutate filtering_hooks open_meta tt anonymous [1; 2; 3] start).1 <>
  inr [("dogs", [])].
Proof.
  split; [reflexivity|]. split; [reflexivity|]. cbn. discriminate.
Qed.

(** [before_mutate] drops the record 0 before permissions are refused. *)
Lemma before_mutate_runs_before_access_checks_witness :
  mutate guarded_hooks closed_meta tt anonymous [1; 0; 3] start =
  (inl (GraphQLError "Must be logged in to access this mutation."),
   {| store := []; calls := [CallBeforeMutate [1; 0; 3]] |}) /\
  mutate guarded_hooks closed_meta tt member [1; 0; 3] start =
  (inl (GraphQLError "Not permitted to access this mutation."),
   {| store := [];
      calls := [CallBeforeMutate [1; 0; 3]; CallCheckPermissions [1; 3]] |}).
Proof.
  split.
  - exact (proj1 (proj2 (before_mutate_runs_before_access_checks guarded_hooks
                           closed_meta tt anonymous [1; 0; 3] start)
                    {| updated_input := Some [1; 3]; input_left := [1; 0; 3] |}
                    [] eq_refl) eq_refl).
  - exact (proj2 (proj2 (before_mutate_runs_before_access_checks guarded_hooks
                           closed_meta tt member [1; 0; 3] start)
                    {| updated_input := Some [1; 3]; input_left := [1; 0; 3] |}
                    [] eq_refl) eq_refl
             (GraphQLError "Not permitted to access this mutation.") [] eq_refl).
Defined.

(** The class of [Dog] made with no return field name. *)
Lemma created_set_under_return_field_name_witness :
  exists meta g',
    dog_factory dog_options registered = (inr meta, g') /\
    Some dog = Some (model meta) /\
    return_field_name meta = "dogs" /\
    forall (cls : Hooks unit nat nat Db unit) root info input s payload s',
      mutate cls meta root info input s = (inr payload, s') ->
      exists input' s1 runs db2 reply db3,
        mutate_prologue cls meta root info input s = (inr input', s1) /\
        records_processed cls meta root info input' input' (store s1) runs db2 /\
        before_save cls root info input'
          (map (fun run => match run.2 with
                           | Some new_obj => new_obj
                           | None => run.1
                           end) runs) db2 = (inr reply, db3) /\
        after_mutate cls root info (input_after_save reply)
          (match updated_objs reply with
           | Some (obj :: updated) => obj :: updated
           | Some [] | None => objs_left reply
           end)
          [(return_field_name meta,
            match updated_objs reply with
            | Some (obj :: updated) => obj :: updated
            | Some [] | None => objs_left reply
            end)] db3 = (inr payload, store s').
Proof.
  eexists _, _. split; [vm_compute; reflexivity|].
  exact (created_set_under_return_field_name (Root := unit) (Data := nat)
           (Obj := nat) (Store := Db) lower_case no_model_fields given_mappings
           no_input_fields unit_type unit_list same_fields super_accepts
           dog_options registered _ _ eq_refl).
Defined.

(** C7 as stated fails when [after_mutate] edits what it is handed: the
    three objects are created and committed, [return_data] is made of
    them under the return field, [after_mutate] empties the list, and the
    payload has no object. *)
Lemma after_mutate_edits_payload_counterexample :
  mutate emptying_hooks open_meta tt anonymous [1; 2; 3] start =
  (inr [("dogs", [])],
   {| store := [10; 20; 30];
      calls := [CallBeforeMutate [1; 2; 3]; CallCheckPermissions [1; 2; 3];
                AtomicEnter;
                CallValidate 1 [1; 2; 3]; CallCreateObj 1;
                CallAfterCreateObj 1 10 [1; 2; 3];
                CallValidate 2 [1; 2; 3]; CallCreateObj 2;
                CallAfterCreateObj 2 20 [1; 2; 3];
                CallValidate 3 [1; 2; 3]; CallCreateObj 3;
                CallAfterCreateObj 3 30 [1; 2; 3];
                CallBeforeSave [1; 2; 3] [10; 20; 30]; AtomicCommit;
                CallAfterMutate [1; 2; 3] [10; 20; 30]
                  [("dogs", [10; 20; 30])]] |}) /\
  (mutate emptying_hooks open_meta tt anonymous [1; 2; 3] start).1 <>
  inr [("dogs", [10; 20; 30])].
Proof. split; [reflexivity|]. cbn. discriminate. Qed.

(** The class of [Dog] made with one permission and no [login_required]. *)
Lemma permissions_require_login_witness :
  exists meta g',
    dog_factory (with_permissions ["dogs.add_dog"] dog_options) registered =
    (inr meta, g') /\
    truthy (login_required meta) = true /\
    forall (cls : Hooks unit nat nat Db unit) root info input s,
      is_authenticated (user (context info)) = false ->
      returned (mutate cls meta root info input s).1 = false /\
      create_calls (calls (mutate cls meta root info input s).2) =
      create_calls (calls s).
Proof.
  eexists _, _. split; [vm_compute; reflexivity|].
  exact (permissions_require_login (Root := unit) (Data := nat)
           (Obj := nat) (Store := Db) lower_case no_model_fields given_mappings
           no_input_fields unit_type unit_list same_fields super_accepts
           (with_permissions ["dogs.add_dog"] dog_options) registered
           _ _ "dogs.add_dog" [] eq_refl eq_refl).
Defined.

(** Both [fields] and [only_fields] given. *)
Lemma conflicting_field_lists_raise_witness :
  exists e,
    dog_factory (with_field_lists ["name"] ["name"] [] [] dog_options) registered =
    (inl e, registered) /\
    (forall m t,
       Some dog = Some m -> model_types registered m = Some t ->
       e = Exception "Cannot set both `fields` and `only_fields` on a mutation").
Proof.
  exact (conflicting_field_lists_raise lower_case no_model_fields given_mappings
           no_input_fields unit_type unit_list same_fields super_accepts
           (with_field_lists ["name"] ["name"] [] [] dog_options) registered
           (or_introl eq_refl)).
Defined.

(** Hooks that edit the lists they are handed and return [None]:
    [before_mutate] drops the record 0 from [input], so two records are
    created; [before_save] reverses [created_objects]; [after_mutate]
    empties that list, which [return_data] holds. *)
Example editing_hooks_run :
  mutate editing_hooks open_meta tt anonymous [1; 0; 3] start =
  (inr [("dogs", [])],
   {| store := [10; 30];
      calls := [CallBeforeMutate [1; 0; 3]; CallCheckPermissions [1; 3];
                AtomicEnter;
                CallValidate 1 [1; 3]; CallCreateObj 1;
                CallAfterCreateObj 1 10 [1; 3];
                CallValidate 3 [1; 3]; CallCreateObj 3;
                CallAfterCreateObj 3 30 [1; 3];
                CallBeforeSave [1; 3] [10; 30]; AtomicCommit;
                CallAfterMutate [1; 3] [30; 10] [("dogs", [30; 10])]] |}).
Proof. reflexivity. Qed.

End Instances.

(** ** Further properties of [mutate] *)

Section MutateEdges.

Context {Root Data Obj Store PyObject : Type}.

Variable cls : Hooks Root Data Obj Store PyObject.
Variable meta : Meta PyObject.
Variable root : Root.
Variable info : Info.

Local Abbreviation loop := (create_loop cls meta root info).
Local Abbreviation prologue := (mutate_prologue cls meta root info).
Local Abbreviation run := (mutate cls meta root info).
Local Abbreviation St := (State Data Obj Store).


(** When [create_obj] raises for the record at some position, after the
    records before it went through the loop and its own validation
    passed: [mutate] raises the same exception, [after_create_obj] is not
    called for the record, the transaction is rolled back and the database
    is as it was when the transaction was entered. *)
Theorem creation_failure_rolls_back_batch
    input (s : St) input' s1 pre d post objs s2 db3 e db4 :
  prologue input s = (inr input', s1) ->
  input' = pre ++ d :: post ->
  loop input' pre [] (log AtomicEnter s1) = (inr objs, s2) ->
  validate cls root info d input' (store s2) = (inr tt, db3) ->
  create_obj_for cls meta info d db3 = (inl e, db4) ->
  run input s =
  (inl e, {| store := store s1;
             calls := calls s2 ++
                      [CallValidate d input'; CallCreateObj d; AtomicRollback] |}).
Proof.
  intros Hp Hin Hpre Hv Hc.
  rewrite (mutate_loop_raises _ _ _ _ _ _ _ _ e
             {| store := db4;
                calls := calls s2 ++ [CallValidate d input'; CallCreateObj d] |} Hp).
  - cbn. rewrite <- app_assoc. reflexivity.
  - rewrite Hin at 2. rewrite create_loop_app, (bind_inr _ _ _ _ _ Hpre).
    now apply create_loop_create_raises with (db1 := db3).
Qed.

(** When [after_create_obj] raises for the record at some position, the
    row [create_obj] just wrote for that record is rolled back with the
    rows of the records before it, and [mutate] raises the same
    exception. *)
Theorem post_create_failure_rolls_back_batch
    input (s : St) input' s1 pre d post objs s2 db3 raw db4 e db5 :
  prologue input s = (inr input', s1) ->
  input' = pre ++ d :: post ->
  loop input' pre [] (log AtomicEnter s1) = (inr objs, s2) ->
  validate cls root info d input' (store s2) = (inr tt, db3) ->
  create_obj_for cls meta info d db3 = (inr raw, db4) ->
  after_create_obj cls root info d raw input' db4 = (inl e, db5) ->
  run input s =
  (inl e, {| store := store s1;
             calls := calls s2 ++
                      [CallValidate d input'; CallCreateObj d;
                       CallAfterCreateObj d raw input'; AtomicRollback] |}).
Proof.
  intros Hp Hin Hpre Hv Hc Ha.
  rewrite (mutate_loop_raises _ _ _ _ _ _ _ _ e
             {| store := db5;
                calls := calls s2 ++ [CallValidate d input'; CallCreateObj d;
                                      CallAfterCreateObj d raw input'] |} Hp).
  - cbn. rewrite <- app_assoc. reflexivity.
  - rewrite Hin at 2. rewrite create_loop_app, (bind_inr _ _ _ _ _ Hpre).
    now apply create_loop_after_create_raises with (db1 := db3) (db2 := db4).
Qed.

(** When [before_save] raises after every record was created, all the
    rows of the batch are rolled back, [mutate] raises the same exception
    and [after_mutate] is not called. *)
Theorem pre_save_failure_rolls_back_batch input (s : St) input' s1 objs s2 e db :
  prologue input s = (inr input', s1) ->
  loop input' input' [] (log AtomicEnter s1) = (inr objs, s2) ->
  before_save cls root info input' objs (store s2) = (inl e, db) ->
  run input s =
  (inl e, {| store := store s1;
             calls := calls s2 ++ [CallBeforeSave input' objs; AtomicRollback] |}) /\
  create_calls (calls s2) = create_calls (calls s) ++ input'.
Proof.
  intros Hp El Eb. split.
  - exact (mutate_before_save_raises _ _ _ _ _ _ _ _ _ _ _ _ Hp El Eb).
  - destruct (create_loop_inr cls meta root info _ _ _ _ _ _ El) as (_ & _ & _ & ->).
    cbn [log calls]. rewrite create_calls_app. cbn. rewrite app_nil_r.
    destruct (prologue_calls cls meta root info input s) as (new & Hnew & _ & Hnone).
    rewrite Hp in Hnew. cbn in Hnew.
    rewrite Hnew, create_calls_app, Hnone, app_nil_r. reflexivity.
Qed.

(** When [after_mutate] raises, the transaction is already committed:
    [mutate] raises the same exception but nothing is rolled back, the
    database is the committed one with what [after_mutate] wrote. *)
Theorem after_mutate_failure_keeps_batch
    input (s : St) input' s1 objs s2 u db3 e db4 :
  prologue input s = (inr input', s1) ->
  loop input' input' [] (log AtomicEnter s1) = (inr objs, s2) ->
  before_save cls root info input' objs (store s2) = (inr u, db3) ->
  after_mutate cls root info (input_after_save u) (saved_objs u)
    [(return_field_name meta, saved_objs u)] db3 = (inl e, db4) ->
  run input s =
  (inl e,
   {| store := db4;
      calls := calls s2 ++
               [CallBeforeSave input' objs; AtomicCommit;
                CallAfterMutate (input_after_save u) (saved_objs u)
                  [(return_field_name meta, saved_objs u)]] |}).
Proof.
  intros Hp El Eb Ea.
  exact (mutate_committed _ _ _ _ _ _ _ _ _ _ _ _ _ _ Hp El Eb Ea).
Qed.



(** An empty list returned by [before_mutate] is not used: like [None],
    it leaves [mutate] with the list it received, as [before_mutate] left
    it; [check_permissions] is called with that list, and the rest of
    [mutate] works on it as [check_permissions] left it. *)
Theorem empty_returned_input_is_ignored input (s : St) reply db left db' :
  before_mutate cls root info input (store s) = (inr reply, db) ->
  updated_input reply = Some [] ->
  login_missing meta info = false ->
  check_permissions cls root info (input_left reply) db = (inr left, db') ->
  prologue input s =
  (inr left,
   {| store := db';
      calls := calls s ++ [CallBeforeMutate input;
                           CallCheckPermissions (input_left reply)] |}).
Proof.
  intros Eb Hu Hl Ec.
  assert (Hin : effective_input reply = input_left reply)
    by (unfold effective_input; now rewrite Hu).
  pose proof (prologue_check_permissions cls meta root info input s reply db
                (inr left) db' Eb Hl) as Hp.
  rewrite Hin in Hp. exact (Hp Ec).
Qed.

(** An empty batch: the transaction is entered and committed with no
    call of [validate] or [create_obj], [before_save] gets the empty
    collection, and when it returns nothing to use and the hooks leave
    the lists alone the empty list is returned under the return field. *)
Theorem empty_batch_commits_nothing input (s : St) s1 u db3 db4 :
  prologue input s = (inr [], s1) ->
  before_save cls root info [] [] (store s1) = (inr u, db3) ->
  truthy_list (updated_objs u) = false ->
  objs_left u = [] ->
  input_after_save u = [] ->
  after_mutate cls root info [] [] [(return_field_name meta, [])] db3 =
    (inr [(return_field_name meta, [])], db4) ->
  run input s =
  (inr [(return_field_name meta, [])],
   {| store := db4;
      calls := calls s1 ++
               [AtomicEnter; CallBeforeSave [] []; AtomicCommit;
                CallAfterMutate [] [] [(return_field_name meta, [])]] |}).
Proof.
  intros Hp Eb Hu Hobjs Hinput Ea.
  assert (Hsaved : saved_objs u = [])
    by (unfold saved_objs; now rewrite Hu).
  pose proof (mutate_committed cls meta root info input s [] s1 [] (log AtomicEnter s1)
                u db3 (inr [(return_field_name meta, [])]) db4 Hp eq_refl Eb) as Hrun.
  rewrite Hsaved, Hinput in Hrun. rewrite (Hrun Ea). cbn [log calls].
  rewrite <- app_assoc. reflexivity.
Qed.

(** Whenever the prologue raises (in [before_mutate], at the login test
    or in [check_permissions]), [mutate] raises the same exception and
    persistence is not reached: the transaction is not entered and
    [create_obj] is not called. *)
Theorem refused_access_never_reaches_persistence input (s : St) e s1 :
  prologue input s = (inl e, s1) ->
  run input s = (inl e, s1) /\
  exists new,
    calls s1 = calls s ++ new /\
    (AtomicEnter ∉ new) /\
    create_calls new = [].
Proof.
  intros Hp. split; [exact (mutate_prologue_raises _ _ _ _ _ _ _ _ Hp)|].
  destruct (prologue_calls cls meta root info input s) as (new & Hnew & Hno & Hnone).
  rewrite Hp in Hnew. eauto.
Qed.


End MutateEdges.

(** ** Further properties of the factory *)

Lemma foldl_insert_lookup_notin {V} (items : list (string * V)) (m : gmap string V) k :
  k ∉ items.*1 ->
  foldl (fun m kv => <[kv.1 := kv.2]> m) m items !! k = m !! k.
Proof.
  revert m. induction items as [|[k' v'] items IH]; intros m Hk; [reflexivity|].
  cbn in *. apply not_elem_of_cons in Hk as [Hne Hk].
  rewrite IH by exact Hk. apply lookup_insert_ne. congruence.
Qed.

Lemma foldl_insert_lookup_in {V} (items : list (string * V)) (m : gmap string V) k v :
  NoDup items.*1 -> (k, v) ∈ items ->
  foldl (fun m kv => <[kv.1 := kv.2]> m) m items !! k = Some v.
Proof.
  revert m. induction items as [|[k' v'] items IH]; intros m Hnd Hin.
  - inversion Hin.
  - cbn in *. apply NoDup_cons in Hnd as [Hfresh Hnd].
    apply elem_of_cons in Hin as [[= -> ->]|Hin].
    + rewrite foldl_insert_lookup_notin by exact Hfresh. apply lookup_insert_eq.
    + apply IH; assumption.
Qed.

Section FactoryEdges.

Context {PyObject : Type}.

Variable to_snake_case : string -> string.
Variable get_model_fields : Model -> PyObject.
Variable apply_field_name_mappings :
  PyObject -> option bool -> option bool -> option (dict string) ->
  result (dict string).
Variable get_input_fields_for_model :
  Model -> list string -> list string -> list string -> list string ->
  dict PyObject -> dict PyObject -> dict PyObject -> dict PyObject ->
  string -> option (dict PyObject) -> dict string ->
  F PyObject (gmap string PyObject).
Variable new_input_object_type : string -> gmap string PyObject -> PyObject.
Variable graphene_List : PyObject -> bool -> PyObject.
Variable yank_fields_from_attrs : dict PyObject -> dict PyObject.
Variable super_init_subclass_with_meta : dict PyObject -> Meta PyObject -> F PyObject unit.

Local Abbreviation factory :=
  (init_subclass_with_meta to_snake_case get_model_fields
     apply_field_name_mappings get_input_fields_for_model
     new_input_object_type graphene_List yank_fields_from_attrs
     super_init_subclass_with_meta).

Local Abbreviation input_type :=
  (input_type_for get_model_fields apply_field_name_mappings
     get_input_fields_for_model new_input_object_type).

(** A class that was made went through lines 102-155 and through the
    initialiser of the superclass; the warnings before them leave the
    registries alone. *)
Lemma factory_inr_input_type o g meta g' :
  factory o g = (inr meta, g') ->
  exists g0 g1 fields exclude arguments,
    converted_fields g0 = converted_fields g /\
    type_meta_registry g0 = type_meta_registry g /\
    input_type o (model meta) fields exclude
      (default [] (opt_auto_context_fields o))
      (default [] (opt_many_to_many_extras o))
      (default [] (opt_foreign_key_extras o))
      (default [] (opt_many_to_one_extras o))
      (default [] (opt_one_to_one_extras o))
      (default [] (opt_custom_fields o)) g0 =
    (inr (InputType meta, input_type_name meta, field_name_mappings meta), g1) /\
    super_init_subclass_with_meta arguments meta g1 = (inr tt, g').
Proof.
  unfold init_subclass_with_meta, bind, gets, ret, raise, warn, modify.
  destruct (opt_model o) as [m|]; cbn; [|discriminate].
  destruct (model_types g m); [|discriminate].
  destruct (nonempty (opt_fields o) && nonempty (opt_only_fields o)); [discriminate|].
  destruct (nonempty (opt_exclude o) && nonempty (opt_exclude_fields o)); [discriminate|].
  destruct (nonempty (opt_only_fields o)), (nonempty (opt_exclude_fields o));
    cbn;
    match goal with
    | |- context [input_type_for _ _ _ _ o m ?f ?e _ _ _ _ _ _ ?g0] =>
        destruct (input_type_for get_model_fields apply_field_name_mappings
                    get_input_fields_for_model new_input_object_type
                    o m f e (default [] (opt_auto_context_fields o))
                    (default [] (opt_many_to_many_extras o))
                    (default [] (opt_foreign_key_extras o))
                    (default [] (opt_many_to_one_extras o))
                    (default [] (opt_one_to_one_extras o))
                    (default [] (opt_custom_fields o)) g0)
          as [[e'|[[T name] fm]] g1] eqn:Hit; [discriminate|];
        match goal with
        | |- context [super_init_subclass_with_meta ?a ?mt g1] =>
            destruct (super_init_subclass_with_meta a mt g1) as [[e'|[]] g2] eqn:Hs;
            [discriminate|];
            intros [= <- <-]; exists g0, g1, f, e, a; cbn; auto
        end
    end.
Qed.

(** Lines 102-106 with a name given as [use_type_name]. *)
Lemma input_type_for_reuse o m fields exclude acf m2m fk m2o o2o custom g0 T name fm g1 :
  truthy_str (opt_use_type_name o) = true ->
  input_type o m fields exclude acf m2m fk m2o o2o custom g0 = (inr (T, name, fm), g1) ->
  g1 = g0 /\
  opt_use_type_name o = Some name /\
  converted_fields g0 !! name = Some T /\
  fm = opt_field_name_mappings o.
Proof.
  intros Huse. unfold input_type_for. rewrite Huse.
  unfold bind, gets, ret, raise.
  destruct (opt_use_type_name o) as [[|c rest]|]; try discriminate. cbn.
  destruct (converted_fields g0 !! String c rest) as [t|] eqn:Hl; [|discriminate].
  intros [= <- <- <- <-]. auto.
Qed.

(** Lines 107-155 without [use_type_name]. *)
Lemma input_type_for_new o m fields exclude acf m2m fk m2o o2o custom g0 T name fm g1 :
  truthy_str (opt_use_type_name o) = false ->
  input_type o m fields exclude acf m2m fk m2o o2o custom g0 = (inr (T, name, fm), g1) ->
  name = str_or (opt_type_name o) ("BatchCreate" +:+ model_name m +:+ "Input") /\
  converted_fields g1 !! name = Some T /\
  is_Some (type_meta_registry g1 !! name) /\
  exists mappings generated g0',
    apply_field_name_mappings (get_model_fields m)
      (opt_use_id_suffixes_for_fk o) (opt_use_id_suffixes_for_m2m o)
      (opt_field_name_mappings o) = inr mappings /\
    fm = Some mappings /\
    get_input_fields_for_model m fields exclude (acf.*1 ++ opt_optional_fields o)
      (opt_required_fields o) m2m fk m2o o2o name (opt_field_types o) mappings g0
    = (inr generated, g0') /\
    T = new_input_object_type name
          (foldl (fun m kv => <[kv.1 := kv.2]> m) generated custom).
Proof.
  intros Huse. unfold input_type_for. rewrite Huse.
  unfold bind, lift_result, ret, meta_registry_register, register_converted_field,
    modify.
  destruct (apply_field_name_mappings _ _ _ _) as [e|mappings] eqn:Ha; [discriminate|].
  destruct (get_input_fields_for_model _ _ _ _ _ _ _ _ _ _ _ _ g0)
    as [[e|generated] g0'] eqn:Hg; [discriminate|].
  intros [= <- <- <- <-]. cbn.
  split; [reflexivity|]. split; [apply lookup_insert_eq|].
  split; [rewrite lookup_insert_eq; eauto|].
  exists mappings, generated, g0'. auto.
Qed.

(** A model without a registered type (or no model at all): the
    assertion of line 79 fails before anything else is looked at, and the
    registries are as they were. *)
Theorem unregistered_model_fails_assertion o g :
  opt_model o ≫= model_types g = None ->
  init_subclass_with_meta to_snake_case get_model_fields
    apply_field_name_mappings get_input_fields_for_model
    new_input_object_type graphene_List yank_fields_from_attrs
    super_init_subclass_with_meta o g =
  (inl (AssertionError ("Model type must be registered for model " +:+
                        from_option model_str "None" (opt_model o))), g).
Proof.
  intros Hnone. unfold init_subclass_with_meta, bind, gets, raise.
  destruct (opt_model o) as [m|]; cbn in *; [|reflexivity].
  rewrite Hnone. reflexivity.
Qed.

(** [use_type_name] naming an input type that is not registered: the
    factory raises the [GraphQLError] of line 106 and registers nothing. *)
Theorem unknown_use_type_name_raises o g m t name :
  opt_model o = Some m ->
  model_types g m = Some t ->
  nonempty (opt_fields o) && nonempty (opt_only_fields o) = false ->
  nonempty (opt_exclude o) && nonempty (opt_exclude_fields o) = false ->
  opt_use_type_name o = Some name ->
  name <> EmptyString ->
  converted_fields g !! name = None ->
  (factory o g).1 =
    inl (GraphQLError ("Could not find input type with name " +:+ name)) /\
  converted_fields (factory o g).2 = converted_fields g /\
  type_meta_registry (factory o g).2 = type_meta_registry g.
Proof.
  intros Hm Ht Hf He Huse Hname Hmissing.
  unfold init_subclass_with_meta, bind, gets, ret, raise, warn, modify.
  rewrite Hm. cbn. rewrite Ht, Hf, He.
  unfold input_type_for. rewrite Huse.
  destruct name as [|c rest]; [congruence|]. cbn.
  unfold bind, gets, raise.
  destruct (nonempty (opt_only_fields o)), (nonempty (opt_exclude_fields o));
    cbn; rewrite Hmissing; auto.
Qed.

(** [use_type_name] on a class that was made: the input type is the one
    found in the registry under that name, which becomes the input type
    name, and the field name mappings are kept as given. *)
Theorem use_type_name_reuses_registered_type o g meta g' :
  factory o g = (inr meta, g') ->
  truthy_str (opt_use_type_name o) = true ->
  opt_use_type_name o = Some (input_type_name meta) /\
  converted_fields g !! input_type_name meta = Some (InputType meta) /\
  field_name_mappings meta = opt_field_name_mappings o.
Proof.
  intros Hf Huse.
  destruct (factory_inr_input_type _ _ _ _ Hf)
    as (g0 & g1 & fields & exclude & arguments & Hcf & _ & Hit & _).
  destruct (input_type_for_reuse _ _ _ _ _ _ _ _ _ _ _ _ _ _ _ Huse Hit)
    as (_ & Hname & Hlookup & Hfm).
  rewrite <- Hcf. auto.
Qed.

(** Without [use_type_name], a class that was made has its input type
    registered under its input type name, which is [type_name] or
    [BatchCreate<Model>Input], and an entry for it in the meta registry,
    provided the initialiser of the superclass leaves both registries
    alone. *)
Theorem new_input_type_is_registered o g meta g' :
  factory o g = (inr meta, g') ->
  truthy_str (opt_use_type_name o) = false ->
  (forall arguments m g0,
     converted_fields (super_init_subclass_with_meta arguments m g0).2 =
     converted_fields g0 /\
     type_meta_registry (super_init_subclass_with_meta arguments m g0).2 =
     type_meta_registry g0) ->
  input_type_name meta =
    str_or (opt_type_name o)
      ("BatchCreate" +:+ model_name (model meta) +:+ "Input") /\
  converted_fields g' !! input_type_name meta = Some (InputType meta) /\
  is_Some (type_meta_registry g' !! input_type_name meta).
Proof.
  intros Hf Huse Hsuper.
  destruct (factory_inr_input_type _ _ _ _ Hf)
    as (g0 & g1 & fields & exclude & arguments & _ & _ & Hit & Hs).
  destruct (input_type_for_new _ _ _ _ _ _ _ _ _ _ _ _ _ _ _ Huse Hit)
    as (Hname & Hlookup & Hmeta & _).
  destruct (Hsuper arguments meta g1) as [Hcf Htm].
  rewrite Hs in Hcf, Htm. cbn in Hcf, Htm.
  rewrite Hcf, Htm. auto.
Qed.

(** Without [use_type_name], the input type of a class that was made is
    built from the generated input fields with the custom fields put over
    them: a name that is not a custom field keeps its generated field,
    and a custom field (the names of a dict being distinct) is found under
    its name. *)
Theorem custom_fields_override_generated o g meta g' :
  factory o g = (inr meta, g') ->
  truthy_str (opt_use_type_name o) = false ->
  NoDup (default [] (opt_custom_fields o)).*1 ->
  exists (generated input_fields : gmap string PyObject)
         fields exclude mappings g0 g0',
    get_input_fields_for_model (model meta) fields exclude
      ((default [] (opt_auto_context_fields o)).*1 ++ opt_optional_fields o)
      (opt_required_fields o)
      (default [] (opt_many_to_many_extras o))
      (default [] (opt_foreign_key_extras o))
      (default [] (opt_many_to_one_extras o))
      (default [] (opt_one_to_one_extras o))
      (input_type_name meta) (opt_field_types o) mappings g0
    = (inr generated, g0') /\
    InputType meta = new_input_object_type (input_type_name meta) input_fields /\
    (forall name field,
       (name, field) ∈ default [] (opt_custom_fields o) ->
       input_fields !! name = Some field) /\
    (forall name,
       name ∉ (default [] (opt_custom_fields o)).*1 ->
       input_fields !! name = generated !! name).
Proof.
  intros Hf Huse Hnd.
  destruct (factory_inr_input_type _ _ _ _ Hf)
    as (g0 & g1 & fields & exclude & arguments & _ & _ & Hit & _).
  destruct (input_type_for_new _ _ _ _ _ _ _ _ _ _ _ _ _ _ _ Huse Hit)
    as (_ & _ & _ & mappings & generated & g0' & _ & _ & Hgen & HT).
  exists generated, (foldl (fun m kv => <[kv.1 := kv.2]> m) generated
                       (default [] (opt_custom_fields o))),
    fields, exclude, mappings, g0, g0'.
  split; [exact Hgen|]. split; [exact HT|]. split.
  - intros name field Hin. now apply foldl_insert_lookup_in.
  - intros name Hnot. now apply foldl_insert_lookup_notin.
Qed.


(** The field lists the input fields are generated from, and the
    warnings issued before that (lines 91-100). *)
Lemma factory_inr_field_lists o g meta g' :
  factory o g = (inr meta, g') ->
  exists g0 g1,
    warnings g0 =
      warnings g ++
      (if nonempty (opt_only_fields o)
       then ["`only_fields` is deprecated in favor of `fields`"] else []) ++
      (if nonempty (opt_exclude_fields o)
       then ["`exclude_fields` is deprecated in favor of `exclude`"] else []) /\
    input_type o (model meta)
      (if nonempty (opt_only_fields o) then opt_only_fields o else opt_fields o)
      (if nonempty (opt_exclude_fields o) then opt_exclude_fields o else opt_exclude o)
      (default [] (opt_auto_context_fields o))
      (default [] (opt_many_to_many_extras o))
      (default [] (opt_foreign_key_extras o))
      (default [] (opt_many_to_one_extras o))
      (default [] (opt_one_to_one_extras o))
      (default [] (opt_custom_fields o)) g0 =
    (inr (InputType meta, input_type_name meta, field_name_mappings meta), g1).
Proof.
  unfold init_subclass_with_meta, bind, gets, ret, raise, warn, modify.
  destruct (opt_model o) as [m|]; cbn; [|discriminate].
  destruct (model_types g m); [|discriminate].
  destruct (nonempty (opt_fields o) && nonempty (opt_only_fields o)); [discriminate|].
  destruct (nonempty (opt_exclude o) && nonempty (opt_exclude_fields o)); [discriminate|].
  destruct (nonempty (opt_only_fields o)), (nonempty (opt_exclude_fields o));
    cbn;
    match goal with
    | |- context [input_type_for _ _ _ _ o m ?f ?e _ _ _ _ _ _ ?g0] =>
        destruct (input_type_for get_model_fields apply_field_name_mappings
                    get_input_fields_for_model new_input_object_type
                    o m f e (default [] (opt_auto_context_fields o))
                    (default [] (opt_many_to_many_extras o))
                    (default [] (opt_foreign_key_extras o))
                    (default [] (opt_many_to_one_extras o))
                    (default [] (opt_one_to_one_extras o))
                    (default [] (opt_custom_fields o)) g0)
          as [[e'|[[T name] fm]] g1] eqn:Hit; [discriminate|];
        match goal with
        | |- context [super_init_subclass_with_meta ?a ?mt g1] =>
            destruct (super_init_subclass_with_meta a mt g1) as [[e'|[]] g2] eqn:Hs;
            [discriminate|];
            intros [= <- <-]; exists g0, g1;
            (split; [cbn; rewrite <- ?app_assoc, ?app_nil_r; reflexivity|exact Hit])
        end
    end.
Qed.

(** The deprecated options: for a class that was made without
    [use_type_name], the input fields are generated from [only_fields]
    when it is not empty and from [fields] otherwise, likewise from
    [exclude_fields] or [exclude], after one deprecation warning for each
    deprecated option that is set. *)
Theorem deprecated_field_lists_are_used o g meta g' :
  factory o g = (inr meta, g') ->
  truthy_str (opt_use_type_name o) = false ->
  exists generated mappings g0 g0',
    get_input_fields_for_model (model meta)
      (if nonempty (opt_only_fields o) then opt_only_fields o else opt_fields o)
      (if nonempty (opt_exclude_fields o) then opt_exclude_fields o else opt_exclude o)
      ((default [] (opt_auto_context_fields o)).*1 ++ opt_optional_fields o)
      (opt_required_fields o)
      (default [] (opt_many_to_many_extras o))
      (default [] (opt_foreign_key_extras o))
      (default [] (opt_many_to_one_extras o))
      (default [] (opt_one_to_one_extras o))
      (input_type_name meta) (opt_field_types o) mappings g0
    = (inr generated, g0') /\
    warnings g0 =
      warnings g ++
      (if nonempty (opt_only_fields o)
       then ["`only_fields` is deprecated in favor of `fields`"] else []) ++
      (if nonempty (opt_exclude_fields o)
       then ["`exclude_fields` is deprecated in favor of `exclude`"] else []).
Proof.
  intros Hf Huse.
  destruct (factory_inr_field_lists _ _ _ _ Hf) as (g0 & g1 & Hw & Hit).
  destruct (input_type_for_new _ _ _ _ _ _ _ _ _ _ _ _ _ _ _ Huse Hit)
    as (_ & _ & _ & mappings & generated & g0' & _ & _ & Hgen & _).
  exists generated, mappings, g0, g0'. auto.
Qed.

End FactoryEdges.

(** ** The further properties on the small instances *)

Section MoreInstances.

Import Examples.

Local Abbreviation open_meta := (dog_meta PyNone).

(** The second of three records is refused by [create_obj], which had
    written its row: both rows are gone. *)
Lemma creation_failure_rolls_back_batch_witness :
  mutate unique_hooks open_meta tt anonymous [1; 7; 3] start =
  (inl (OtherError "IntegrityError" "duplicate key"),
   {| store := [];
      calls := [CallBeforeMutate [1; 7; 3]; CallCheckPermissions [1; 7; 3];
                AtomicEnter;
                CallValidate 1 [1; 7; 3]; CallCreateObj 1;
                CallAfterCreateObj 1 10 [1; 7; 3];
                CallValidate 7 [1; 7; 3]; CallCreateObj 7; AtomicRollback] |}).
Proof.
  exact (creation_failure_rolls_back_batch unique_hooks open_meta tt anonymous
           [1; 7; 3] start [1; 7; 3] _ [1] 7 [3] _ _ _ _ _
           eq_refl eq_refl eq_refl eq_refl eq_refl).
Defined.

Lemma post_create_failure_rolls_back_batch_witness :
  mutate strict_hooks open_meta tt anonymous [1; 6; 2] start =
  (inl (OtherError "ValueError" "too big"),
   {| store := [];
      calls := [CallBeforeMutate [1; 6; 2]; CallCheckPermissions [1; 6; 2];
                AtomicEnter;
                CallValidate 1 [1; 6; 2]; CallCreateObj 1;
                CallAfterCreateObj 1 10 [1; 6; 2];
                CallValidate 6 [1; 6; 2]; CallCreateObj 6;
                CallAfterCreateObj 6 60 [1; 6; 2]; AtomicRollback] |}).
Proof.
  exact (post_create_failure_rolls_back_batch strict_hooks open_meta tt anonymous
           [1; 6; 2] start [1; 6; 2] _ [1] 6 [2] _ _ _ _ _ _ _
           eq_refl eq_refl eq_refl eq_refl eq_refl eq_refl).
Defined.

Lemma pre_save_failure_rolls_back_batch_witness :
  mutate strict_hooks open_meta tt anonymous [1; 2; 3] start =
  (inl (OtherError "ValueError" "too many"),
   {| store := [];
      calls := [CallBeforeMutate [1; 2; 3]; CallCheckPermissions [1; 2; 3];
                AtomicEnter;
                CallValidate 1 [1; 2; 3]; CallCreateObj 1;
                CallAfterCreateObj 1 10 [1; 2; 3];
                CallValidate 2 [1; 2; 3]; CallCreateObj 2;
                CallAfterCreateObj 2 20 [1; 2; 3];
                CallValidate 3 [1; 2; 3]; CallCreateObj 3;
                CallAfterCreateObj 3 30 [1; 2; 3];
                CallBeforeSave [1; 2; 3] [10; 20; 30]; AtomicRollback] |}) /\
  [1; 2; 3] = [1; 2; 3].
Proof.
  exact (pre_save_failure_rolls_back_batch strict_hooks open_meta tt anonymous
           [1; 2; 3] start [1; 2; 3] _ [10; 20; 30] _ _ _
           eq_refl eq_refl eq_refl).
Defined.

(** [after_mutate] raises: the two rows of the batch stay, with the row
    [after_mutate] wrote. *)
Lemma after_mutate_failure_keeps_batch_witness :
  mutate strict_hooks open_meta tt anonymous [1; 2] start =
  (inl (OtherError "ConnectionError" "mail server down"),
   {| store := [10; 20; 1];
      calls := [CallBeforeMutate [1; 2]; CallCheckPermissions [1; 2];
                AtomicEnter;
                CallValidate 1 [1; 2]; CallCreateObj 1;
                CallAfterCreateObj 1 10 [1; 2];
                CallValidate 2 [1; 2]; CallCreateObj 2;
                CallAfterCreateObj 2 20 [1; 2];
                CallBeforeSave [1; 2] [10; 20]; AtomicCommit;
                CallAfterMutate [1; 2] [10; 20] [("dogs", [10; 20])]] |}).
Proof.
  exact (after_mutate_failure_keeps_batch strict_hooks open_meta tt anonymous
           [1; 2] start [1; 2] _ [10; 20] _
           {| updated_objs := None; objs_left := [10; 20];
              input_after_save := [1; 2] |} _ _ _
           eq_refl eq_refl eq_refl eq_refl).
Defined.



(** [before_mutate] returns an empty list: the batch 1, 2 goes on. *)
Lemma empty_returned_input_is_ignored_witness :
  mutate_prologue strict_hooks open_meta tt anonymous [1; 2] start =
  (inr [1; 2],
   {| store := [];
      calls := [CallBeforeMutate [1; 2]; CallCheckPermissions [1; 2]] |}).
Proof.
  exact (empty_returned_input_is_ignored strict_hooks open_meta tt anonymous
           [1; 2] start {| updated_input := Some []; input_left := [1; 2] |}
           [] [1; 2] [] eq_refl eq_refl eq_refl eq_refl).
Defined.

Lemma empty_batch_commits_nothing_witness :
  mutate plain_hooks open_meta tt anonymous [] start =
  (inr [("dogs", [])],
   {| store := [];
      calls := [CallBeforeMutate []; CallCheckPermissions []; AtomicEnter;
                CallBeforeSave [] []; AtomicCommit;
                CallAfterMutate [] [] [("dogs", [])]] |}).
Proof.
  exact (empty_batch_commits_nothing plain_hooks open_meta tt anonymous
           [] start _
           {| updated_objs := None; objs_left := []; input_after_save := [] |}
           _ _ eq_refl eq_refl eq_refl eq_refl eq_refl eq_refl).
Defined.

Lemma refused_access_never_reaches_persistence_witness :
  mutate guarded_hooks open_meta tt member [1; 0; 3] start =
  (inl (GraphQLError "Not permitted to access this mutation."),
   {| store := [];
      calls := [CallBeforeMutate [1; 0; 3]; CallCheckPermissions [1; 3]] |}) /\
  exists new : list (call nat nat),
    [CallBeforeMutate [1; 0; 3]; CallCheckPermissions [1; 3]] = [] ++ new /\
    (AtomicEnter ∉ new) /\
    create_calls new = [].
Proof.
  exact (refused_access_never_reaches_persistence guarded_hooks open_meta tt member
           [1; 0; 3] start _ _ eq_refl).
Defined.


(** No type is registered for [Cat]. *)
Lemma unregistered_model_fails_assertion_witness :
  dog_factory (with_model (Some cat) dog_options) registered =
  (inl (AssertionError "Model type must be registered for model <class 'Cat'>"),
   registered).
Proof.
  exact (unregistered_model_fails_assertion lower_case no_model_fields given_mappings
           no_input_fields unit_type unit_list same_fields super_accepts
           (with_model (Some cat) dog_options) registered eq_refl).
Defined.

Lemma unknown_use_type_name_raises_witness :
  (dog_factory (with_type_names None (Some "DogInput") None dog_options) registered).1 =
    inl (GraphQLError "Could not find input type with name DogInput") /\
  converted_fields
    (dog_factory (with_type_names None (Some "DogInput") None dog_options) registered).2
  = converted_fields registered /\
  type_meta_registry
    (dog_factory (with_type_names None (Some "DogInput") None dog_options) registered).2
  = type_meta_registry registered.
Proof.
  refine (unknown_use_type_name_raises lower_case no_model_fields given_mappings
            no_input_fields unit_type unit_list same_fields super_accepts
            (with_type_names None (Some "DogInput") None dog_options) registered
            dog tt "DogInput" eq_refl eq_refl eq_refl eq_refl eq_refl _ eq_refl).
  discriminate.
Defined.

Lemma use_type_name_reuses_registered_type_witness :
  exists meta g',
    dog_factory (with_type_names None (Some "DogInput") None dog_options)
      registered_with_input = (inr meta, g') /\
    Some "DogInput" = Some (input_type_name meta) /\
    converted_fields registered_with_input !! input_type_name meta =
    Some (InputType meta) /\
    field_name_mappings meta = None.
Proof.
  eexists _, _. split; [vm_compute; reflexivity|].
  exact (use_type_name_reuses_registered_type lower_case no_model_fields
           given_mappings no_input_fields unit_type unit_list same_fields
           super_accepts
           (with_type_names None (Some "DogInput") None dog_options)
           registered_with_input _ _ eq_refl eq_refl).
Defined.

Lemma super_accepts_keeps_registries arguments m (g0 : Globals unit) :
  converted_fields (super_accepts arguments m g0).2 = converted_fields g0 /\
  type_meta_registry (super_accepts arguments m g0).2 = type_meta_registry g0.
Proof. split; reflexivity. Defined.

Lemma new_input_type_is_registered_witness :
  exists meta g',
    dog_factory dog_options registered = (inr meta, g') /\
    input_type_name meta = "BatchCreateDogInput" /\
    converted_fields g' !! input_type_name meta = Some (InputType meta) /\
    is_Some (type_meta_registry g' !! input_type_name meta).
Proof.
  eexists _, _. split; [vm_compute; reflexivity|].
  exact (new_input_type_is_registered lower_case no_model_fields
           given_mappings no_input_fields unit_type unit_list same_fields
           super_accepts dog_options registered _ _ eq_refl eq_refl
           super_accepts_keeps_registries).
Defined.


(** The custom field [nickname] is a field of the input type. *)
Lemma custom_fields_override_generated_witness :
  exists meta g' (input_fields : gmap string unit),
    dog_factory (with_type_names None None (Some [("nickname", tt)]) dog_options)
      registered = (inr meta, g') /\
    InputType meta = unit_type (input_type_name meta) input_fields /\
    input_fields !! "nickname" = Some tt.
Proof.
  destruct (dog_factory (with_type_names None None (Some [("nickname", tt)])
                           dog_options) registered)
    as [[e|meta] g'] eqn:Hf; [vm_compute in Hf; discriminate|].
  destruct (custom_fields_override_generated lower_case no_model_fields
              given_mappings no_input_fields unit_type unit_list same_fields
              super_accepts
              (with_type_names None None (Some [("nickname", tt)]) dog_options)
              registered meta g' Hf eq_refl (NoDup_singleton "nickname"))
    as (generated & input_fields & _ & _ & _ & _ & _ & _ & HT & Hcustom & _).
  exists meta, g', input_fields. split; [reflexivity|]. split; [exact HT|].
  apply Hcustom. apply list_elem_of_here.
Defined.

Lemma deprecated_field_lists_are_used_witness :
  exists meta g' generated mappings g0 g0',
    dog_factory (with_field_lists [] ["name"] ["id"] [] dog_options) registered =
    (inr meta, g') /\
    no_input_fields (model meta) ["name"] ["id"] [] [] [] [] [] []
      (input_type_name meta) None mappings g0 = (inr generated, g0') /\
    warnings g0 = ["`only_fields` is deprecated in favor of `fields`"].
Proof.
  destruct (dog_factory (with_field_lists [] ["name"] ["id"] [] dog_options) registered)
    as [[e|meta] g'] eqn:Hf; [vm_compute in Hf; discriminate|].
  destruct (deprecated_field_lists_are_used lower_case no_model_fields
              given_mappings no_input_fields unit_type unit_list same_fields
              super_accepts
              (with_field_lists [] ["name"] ["id"] [] dog_options)
              registered meta g' Hf eq_refl)
    as (generated & mappings & g0 & g0' & Hgen & Hw).
  exists meta, g', generated, mappings, g0, g0'.
  split; [reflexivity|]. split; [exact Hgen|exact Hw].
Defined.

End MoreInstances.
